(** * GitGUIManager: the command layer of [gitprojectmanager.pyw]

    A shallow embedding of the handlers of the [GitGUI] class: every
    button of the window builds an argument vector, hands it to
    [subprocess.run] together with the text of the repository-path field,
    and reports the outcome in a text widget, the status label or an
    error dialog.

    The embedding keeps three things apart:
    - the [GitGUI] object (the widgets the handlers read and write),
    - what leaves the program: the dialogs shown by [show_error] and the
      calls made to [subprocess.run],
    - the operating system, an oracle that says whether a directory
      exists and how a launched process ends.

    A Python [str] is modelled as a [string]; every [ascii] stands for the
    code point of the same number (0..255). *)

From Stdlib Require Import String Ascii List Bool ZArith Arith Lia.
Import ListNotations.
Local Open Scope string_scope.

(** * Python string methods used by the handlers *)

Module PyStr.

(** [str.isspace] on one character, for code points below 256: the
    controls 0x09-0x0D and 0x1C-0x1F, the space, NEL (0x85) and the
    no-break space (0xA0). *)
Definition isspace (c : ascii) : bool :=
  let n := nat_of_ascii c in
  (((9 <=? n) && (n <=? 13)) || ((28 <=? n) && (n <=? 32))
   || (n =? 133) || (n =? 160))%nat.

(** The line feed, written ['\n'] in the source. *)
Definition LF_char : ascii := ascii_of_nat 10.
Definition LF : string := String LF_char "".

Definition star : ascii := "*"%char.

(** [not s] for a string. *)
Definition is_empty (s : string) : bool :=
  match s with
  | "" => true
  | String _ _ => false
  end.

(** [s.lstrip()] *)
Fixpoint lstrip (s : string) : string :=
  match s with
  | "" => ""
  | String c r => if isspace c then lstrip r else s
  end.

(** [s.rstrip()] *)
Fixpoint rstrip (s : string) : string :=
  match s with
  | "" => ""
  | String c r =>
      let r' := rstrip r in
      if isspace c && is_empty r' then "" else String c r'
  end.

(** [s.strip()] *)
Definition strip (s : string) : string := rstrip (lstrip s).

(** [s.replace(c, '')] for a one-character pattern [c]: every
    occurrence of [c] is dropped. *)
Fixpoint remove_char (c : ascii) (s : string) : string :=
  match s with
  | "" => ""
  | String d r =>
      if Ascii.eqb d c then remove_char c r else String d (remove_char c r)
  end.

(** [s.split(sep)] for a one-character separator: the pieces between
    the separators, empty pieces included; never the empty list. *)
Fixpoint split (sep : ascii) (s : string) : list string :=
  match s with
  | "" => [""]
  | String c r =>
      if Ascii.eqb c sep then "" :: split sep r
      else match split sep r with
           | [] => [String c ""]
           | piece :: pieces => String c piece :: pieces
           end
  end.

(** A finished token is emitted unless it is empty. *)
Definition flush (tok : string) : list string :=
  if is_empty tok then [] else [tok].

(** [s.split()] with no separator: a scan from the left that collects
    the characters of the current token in [tok] and emits it at the
    next whitespace character or at the end. *)
Fixpoint split_scan (tok : string) (s : string) : list string :=
  match s with
  | "" => flush tok
  | String c r =>
      if isspace c then flush tok ++ split_scan "" r
      else split_scan (tok ++ String c "") r
  end.

Definition split_whitespace (s : string) : list string := split_scan "" s.

(** [s.startswith(p)] *)
Definition startswith (s p : string) : bool := String.prefix p s.

End PyStr.

Import PyStr.

(** * Widgets

    A [QLineEdit] is its text, a [QLabel] its text, a [QCheckBox] its
    check mark, a read-only [QTextEdit] the list of the paragraphs
    appended to it. *)

(** A [QComboBox] that cannot be edited: its items, the index of the
    current one and its placeholder text. *)
Record QComboBox : Type := mkCombo {
  items : list string;
  currentIndex : option nat;
  placeholderText : string
}.

(** [combo.currentText()]: the text of the current item, the empty
    string when there is none. *)
Definition currentText (c : QComboBox) : string :=
  match currentIndex c with
  | Some i => nth i (items c) ""
  | None => ""
  end.

(** [combo.clear()] *)
Definition clear (c : QComboBox) : QComboBox :=
  mkCombo [] None (placeholderText c).

(** [combo.addItem(text)]: the item goes to the end; the first item of a
    combo box without placeholder text becomes the current one. *)
Definition addItem (text : string) (c : QComboBox) : QComboBox :=
  mkCombo (items c ++ [text])
    (match items c, currentIndex c with
     | [], None => if is_empty (placeholderText c) then Some 0 else None
     | _, i => i
     end)
    (placeholderText c).

(** [addItem] for each text of a list, in order. *)
Definition add_items (texts : list string) (c : QComboBox) : QComboBox :=
  fold_left (fun combo text => addItem text combo) texts c.

(** * The [GitGUI] object

    The attributes of [self] that the command handlers read or write. *)
Record GitGUI : Type := mkGitGUI {
  current_branch : string;
  repo_path : string;
  commit_msg : string;
  remote_url_lineedit : string;
  new_branch_name : string;
  new_branch_name_edit : string;
  remote_name : string;
  remote_url : string;
  command_input : string;
  force_push : bool;
  delete_branch_combo : QComboBox;
  rename_branch_combo : QComboBox;
  merge_source_combo : QComboBox;
  merge_target_combo : QComboBox;
  branch_for_push : QComboBox;
  remote_list : QComboBox;
  status_label : string;
  output_text : list string;
  advanced_output : list string;
  terminal_output : list string;
  history_text : list string
}.

Definition set_current_branch (v : string) (g : GitGUI) : GitGUI :=
  mkGitGUI v (repo_path g) (commit_msg g) (remote_url_lineedit g)
    (new_branch_name g) (new_branch_name_edit g) (remote_name g)
    (remote_url g) (command_input g) (force_push g)
    (delete_branch_combo g) (rename_branch_combo g) (merge_source_combo g)
    (merge_target_combo g) (branch_for_push g) (remote_list g) (status_label g)
    (output_text g) (advanced_output g) (terminal_output g) (history_text g).

Definition set_command_input (v : string) (g : GitGUI) : GitGUI :=
  mkGitGUI (current_branch g) (repo_path g) (commit_msg g)
    (remote_url_lineedit g) (new_branch_name g) (new_branch_name_edit g)
    (remote_name g) (remote_url g) v (force_push g)
    (delete_branch_combo g) (rename_branch_combo g) (merge_source_combo g)
    (merge_target_combo g) (branch_for_push g) (remote_list g) (status_label g)
    (output_text g) (advanced_output g) (terminal_output g) (history_text g).

Definition set_delete_branch_combo (v : QComboBox) (g : GitGUI) : GitGUI :=
  mkGitGUI (current_branch g) (repo_path g) (commit_msg g)
    (remote_url_lineedit g) (new_branch_name g) (new_branch_name_edit g)
    (remote_name g) (remote_url g) (command_input g) (force_push g) v
    (rename_branch_combo g) (merge_source_combo g) (merge_target_combo g)
    (branch_for_push g) (remote_list g) (status_label g) (output_text g)
    (advanced_output g) (terminal_output g) (history_text g).

Definition set_rename_branch_combo (v : QComboBox) (g : GitGUI) : GitGUI :=
  mkGitGUI (current_branch g) (repo_path g) (commit_msg g)
    (remote_url_lineedit g) (new_branch_name g) (new_branch_name_edit g)
    (remote_name g) (remote_url g) (command_input g) (force_push g)
    (delete_branch_combo g) v (merge_source_combo g)
    (merge_target_combo g) (branch_for_push g) (remote_list g) (status_label g)
    (output_text g) (advanced_output g) (terminal_output g) (history_text g).

Definition set_merge_source_combo (v : QComboBox) (g : GitGUI) : GitGUI :=
  mkGitGUI (current_branch g) (repo_path g) (commit_msg g)
    (remote_url_lineedit g) (new_branch_name g) (new_branch_name_edit g)
    (remote_name g) (remote_url g) (command_input g) (force_push g)
    (delete_branch_combo g) (rename_branch_combo g) v
    (merge_target_combo g) (branch_for_push g) (remote_list g) (status_label g)
    (output_text g) (advanced_output g) (terminal_output g) (history_text g).

Definition set_merge_target_combo (v : QComboBox) (g : GitGUI) : GitGUI :=
  mkGitGUI (current_branch g) (repo_path g) (commit_msg g)
    (remote_url_lineedit g) (new_branch_name g) (new_branch_name_edit g)
    (remote_name g) (remote_url g) (command_input g) (force_push g)
    (delete_branch_combo g) (rename_branch_combo g) (merge_source_combo g)
    v (branch_for_push g) (remote_list g) (status_label g) (output_text g)
    (advanced_output g) (terminal_output g) (history_text g).

Definition set_branch_for_push (v : QComboBox) (g : GitGUI) : GitGUI :=
  mkGitGUI (current_branch g) (repo_path g) (commit_msg g)
    (remote_url_lineedit g) (new_branch_name g) (new_branch_name_edit g)
    (remote_name g) (remote_url g) (command_input g) (force_push g)
    (delete_branch_combo g) (rename_branch_combo g) (merge_source_combo g)
    (merge_target_combo g) v (remote_list g) (status_label g)
    (output_text g) (advanced_output g) (terminal_output g) (history_text g).

Definition set_remote_list (v : QComboBox) (g : GitGUI) : GitGUI :=
  mkGitGUI (current_branch g) (repo_path g) (commit_msg g)
    (remote_url_lineedit g) (new_branch_name g) (new_branch_name_edit g)
    (remote_name g) (remote_url g) (command_input g) (force_push g)
    (delete_branch_combo g) (rename_branch_combo g) (merge_source_combo g)
    (merge_target_combo g) (branch_for_push g) v (status_label g)
    (output_text g) (advanced_output g) (terminal_output g)
    (history_text g).

Definition set_status_label (v : string) (g : GitGUI) : GitGUI :=
  mkGitGUI (current_branch g) (repo_path g) (commit_msg g)
    (remote_url_lineedit g) (new_branch_name g) (new_branch_name_edit g)
    (remote_name g) (remote_url g) (command_input g) (force_push g)
    (delete_branch_combo g) (rename_branch_combo g) (merge_source_combo g)
    (merge_target_combo g) (branch_for_push g) (remote_list g) v
    (output_text g) (advanced_output g) (terminal_output g)
    (history_text g).

Definition set_output_text (v : list string) (g : GitGUI) : GitGUI :=
  mkGitGUI (current_branch g) (repo_path g) (commit_msg g)
    (remote_url_lineedit g) (new_branch_name g) (new_branch_name_edit g)
    (remote_name g) (remote_url g) (command_input g) (force_push g)
    (delete_branch_combo g) (rename_branch_combo g) (merge_source_combo g)
    (merge_target_combo g) (branch_for_push g) (remote_list g)
    (status_label g) v (advanced_output g) (terminal_output g)
    (history_text g).

Definition set_advanced_output (v : list string) (g : GitGUI) : GitGUI :=
  mkGitGUI (current_branch g) (repo_path g) (commit_msg g)
    (remote_url_lineedit g) (new_branch_name g) (new_branch_name_edit g)
    (remote_name g) (remote_url g) (command_input g) (force_push g)
    (delete_branch_combo g) (rename_branch_combo g) (merge_source_combo g)
    (merge_target_combo g) (branch_for_push g) (remote_list g)
    (status_label g) (output_text g) v (terminal_output g)
    (history_text g).

Definition set_terminal_output (v : list string) (g : GitGUI) : GitGUI :=
  mkGitGUI (current_branch g) (repo_path g) (commit_msg g)
    (remote_url_lineedit g) (new_branch_name g) (new_branch_name_edit g)
    (remote_name g) (remote_url g) (command_input g) (force_push g)
    (delete_branch_combo g) (rename_branch_combo g) (merge_source_combo g)
    (merge_target_combo g) (branch_for_push g) (remote_list g)
    (status_label g) (output_text g) (advanced_output g) v
    (history_text g).

Definition set_history_text (v : list string) (g : GitGUI) : GitGUI :=
  mkGitGUI (current_branch g) (repo_path g) (commit_msg g)
    (remote_url_lineedit g) (new_branch_name g) (new_branch_name_edit g)
    (remote_name g) (remote_url g) (command_input g) (force_push g)
    (delete_branch_combo g) (rename_branch_combo g) (merge_source_combo g)
    (merge_target_combo g) (branch_for_push g) (remote_list g)
    (status_label g) (output_text g) (advanced_output g)
    (terminal_output g) v.

(** The fields the user fills in; no handler writes them. *)
Definition set_repo_path (v : string) (g : GitGUI) : GitGUI :=
  mkGitGUI (current_branch g) v (commit_msg g) (remote_url_lineedit g)
    (new_branch_name g) (new_branch_name_edit g) (remote_name g)
    (remote_url g) (command_input g) (force_push g)
    (delete_branch_combo g) (rename_branch_combo g) (merge_source_combo g)
    (merge_target_combo g) (branch_for_push g) (remote_list g)
    (status_label g) (output_text g) (advanced_output g)
    (terminal_output g) (history_text g).

Definition set_commit_msg (v : string) (g : GitGUI) : GitGUI :=
  mkGitGUI (current_branch g) (repo_path g) v (remote_url_lineedit g)
    (new_branch_name g) (new_branch_name_edit g) (remote_name g)
    (remote_url g) (command_input g) (force_push g)
    (delete_branch_combo g) (rename_branch_combo g) (merge_source_combo g)
    (merge_target_combo g) (branch_for_push g) (remote_list g)
    (status_label g) (output_text g) (advanced_output g)
    (terminal_output g) (history_text g).

Definition set_remote_url_lineedit (v : string) (g : GitGUI) : GitGUI :=
  mkGitGUI (current_branch g) (repo_path g) (commit_msg g) v
    (new_branch_name g) (new_branch_name_edit g) (remote_name g)
    (remote_url g) (command_input g) (force_push g)
    (delete_branch_combo g) (rename_branch_combo g) (merge_source_combo g)
    (merge_target_combo g) (branch_for_push g) (remote_list g)
    (status_label g) (output_text g) (advanced_output g)
    (terminal_output g) (history_text g).

Definition set_new_branch_name (v : string) (g : GitGUI) : GitGUI :=
  mkGitGUI (current_branch g) (repo_path g) (commit_msg g)
    (remote_url_lineedit g) v (new_branch_name_edit g) (remote_name g)
    (remote_url g) (command_input g) (force_push g)
    (delete_branch_combo g) (rename_branch_combo g) (merge_source_combo g)
    (merge_target_combo g) (branch_for_push g) (remote_list g)
    (status_label g) (output_text g) (advanced_output g)
    (terminal_output g) (history_text g).

Definition set_new_branch_name_edit (v : string) (g : GitGUI) : GitGUI :=
  mkGitGUI (current_branch g) (repo_path g) (commit_msg g)
    (remote_url_lineedit g) (new_branch_name g) v (remote_name g)
    (remote_url g) (command_input g) (force_push g)
    (delete_branch_combo g) (rename_branch_combo g) (merge_source_combo g)
    (merge_target_combo g) (branch_for_push g) (remote_list g)
    (status_label g) (output_text g) (advanced_output g)
    (terminal_output g) (history_text g).

Definition set_remote_name (v : string) (g : GitGUI) : GitGUI :=
  mkGitGUI (current_branch g) (repo_path g) (commit_msg g)
    (remote_url_lineedit g) (new_branch_name g) (new_branch_name_edit g) v
    (remote_url g) (command_input g) (force_push g)
    (delete_branch_combo g) (rename_branch_combo g) (merge_source_combo g)
    (merge_target_combo g) (branch_for_push g) (remote_list g)
    (status_label g) (output_text g) (advanced_output g)
    (terminal_output g) (history_text g).

Definition set_remote_url (v : string) (g : GitGUI) : GitGUI :=
  mkGitGUI (current_branch g) (repo_path g) (commit_msg g)
    (remote_url_lineedit g) (new_branch_name g) (new_branch_name_edit g)
    (remote_name g) v (command_input g) (force_push g)
    (delete_branch_combo g) (rename_branch_combo g) (merge_source_combo g)
    (merge_target_combo g) (branch_for_push g) (remote_list g)
    (status_label g) (output_text g) (advanced_output g)
    (terminal_output g) (history_text g).

Definition set_force_push (v : bool) (g : GitGUI) : GitGUI :=
  mkGitGUI (current_branch g) (repo_path g) (commit_msg g)
    (remote_url_lineedit g) (new_branch_name g) (new_branch_name_edit g)
    (remote_name g) (remote_url g) (command_input g) v
    (delete_branch_combo g) (rename_branch_combo g) (merge_source_combo g)
    (merge_target_combo g) (branch_for_push g) (remote_list g)
    (status_label g) (output_text g) (advanced_output g)
    (terminal_output g) (history_text g).

(** The object as [__init__] and the tab constructors leave it. *)
Definition init_gui : GitGUI :=
  mkGitGUI "main" "" "" "" "" "" "" "" "" false
    (mkCombo [] None "Select branch to delete...")
    (mkCombo [] None "Current branch name...")
    (mkCombo [] None "Source branch...")
    (mkCombo [] None "Target branch...")
    (mkCombo [] None "")
    (mkCombo [] None "")
    "Ready" [] [] [] [].

(** * Processes, exceptions and the operating system *)

(** The value returned by [subprocess.run]. *)
Record CompletedProcess : Type := mkCompleted {
  returncode : Z;
  stdout : string;
  stderr : string
}.

(** One call of [subprocess.run]: the argument vector, the [cwd] keyword
    and the [shell] keyword, which no call of the source sets. *)
Record Call : Type := mkCall {
  args : list string;
  cwd : string;
  shell : bool
}.

(** The exceptions a call of [subprocess.run] can raise.
    [CalledProcessError] carries the exit status and the command;
    [OSError] stands for its subclasses ([FileNotFoundError],
    [NotADirectoryError], [PermissionError]) and carries the file name;
    [UnicodeDecodeError] is raised when the captured output is not text. *)
Inductive exn : Type :=
| CalledProcessError (status : Z) (cmd : list string)
| OSError (filename : string)
| UnicodeDecodeError.

(** The classes named in the [except] clauses of the source. *)
Definition class_CalledProcessError (e : exn) : bool :=
  match e with
  | CalledProcessError _ _ => true
  | _ => false
  end.

Definition class_OSError (e : exn) : bool :=
  match e with
  | OSError _ => true
  | _ => false
  end.

Definition class_Exception (e : exn) : bool := true.

(** What an error dialog displays: a literal of the source, [str(err)],
    or an f-string made of a literal followed by [str(err)]. The text of
    [str(err)] is produced by the Python library and is kept symbolic. *)
Inductive message : Type :=
| Text (s : string)
| StrOf (err : exn)
| Prefixed (literal : string) (err : exn).

(** How the operating system answers once the working directory has been
    entered: the executable cannot be started, the output cannot be
    decoded, or the process ends. *)
Inductive Launch : Type :=
| NotStarted
| Undecodable
| Exit (result : CompletedProcess).

(** The operating system: which directories exist, and the fate of a
    call given the calls made before it. *)
Record OS : Type := mkOS {
  isdir : string -> bool;
  launch : list Call -> Call -> Launch
}.

(** * The world the handlers run in *)

Record World : Type := mkWorld {
  self : GitGUI;
  dialogs : list message;
  calls : list Call
}.

(** The result of running a piece of Python: a value, or an exception on
    its way up. Mutations made before the exception stay. *)
Inductive outcome (A : Type) : Type :=
| Returned (a : A)
| Raised (e : exn).

Arguments Returned {A} a.
Arguments Raised {A} e.

Definition Py (A : Type) : Type := World -> outcome A * World.

Definition ret {A : Type} (a : A) : Py A := fun w => (Returned a, w).

Definition bind {A B : Type} (m : Py A) (k : A -> Py B) : Py B :=
  fun w =>
    match m w with
    | (Returned a, w') => k a w'
    | (Raised e, w') => (Raised e, w')
    end.

Declare Scope py_scope.
Delimit Scope py_scope with py.
Notation "x <- m ;; k" := (bind m (fun x => k))
  (at level 61, m at next level, right associativity) : py_scope.
Notation "m ;; k" := (bind m (fun _ => k))
  (at level 61, right associativity) : py_scope.
Local Open Scope py_scope.

(** One [except cls as err: handler] clause. *)
Record clause (A : Type) : Type := except {
  catches : exn -> bool;
  handler : exn -> Py A
}.

Arguments except {A} catches handler.
Arguments catches {A} c e.
Arguments handler {A} c e.

(** The first clause whose class matches the exception. *)
Fixpoint select {A : Type} (clauses : list (clause A)) (e : exn)
  : option (Py A) :=
  match clauses with
  | [] => None
  | c :: rest => if catches c e then Some (handler c e) else select rest e
  end.

(** [try: body except ...]: an exception no clause matches goes on up. *)
Definition try {A : Type} (body : Py A) (clauses : list (clause A)) : Py A :=
  fun w =>
    match body w with
    | (Returned a, w') => (Returned a, w')
    | (Raised e, w') =>
        match select clauses e with
        | Some h => h w'
        | None => (Raised e, w')
        end
    end.

(** [for x in xs: body x] *)
Fixpoint for_each {A : Type} (xs : list A) (body : A -> Py unit) : Py unit :=
  match xs with
  | [] => ret tt
  | x :: rest => body x ;; for_each rest body
  end.

(** Reading an attribute of [self], and changing the object. *)
Definition read {A : Type} (f : GitGUI -> A) : Py A :=
  fun w => (Returned (f (self w)), w).

Definition update (f : GitGUI -> GitGUI) : Py unit :=
  fun w => (Returned tt, mkWorld (f (self w)) (dialogs w) (calls w)).

(** [self.show_error(message)]: a [QMessageBox.critical] dialog. *)
Definition show_error (m : message) : Py unit :=
  fun w => (Returned tt, mkWorld (self w) (dialogs w ++ [m]) (calls w)).

(** Widget methods called by the handlers. *)
Definition status_label_setText (t : string) : Py unit :=
  update (set_status_label t).

Definition output_text_append (t : string) : Py unit :=
  update (fun g => set_output_text (output_text g ++ [t]) g).

Definition advanced_output_append (t : string) : Py unit :=
  update (fun g => set_advanced_output (advanced_output g ++ [t]) g).

Definition terminal_output_append (t : string) : Py unit :=
  update (fun g => set_terminal_output (terminal_output g ++ [t]) g).

Definition history_text_clear : Py unit := update (set_history_text []).

Definition history_text_append (t : string) : Py unit :=
  update (fun g => set_history_text (history_text g ++ [t]) g).

Definition command_input_clear : Py unit := update (set_command_input "").

Definition merge_source_combo_clear : Py unit :=
  update (fun g => set_merge_source_combo (clear (merge_source_combo g)) g).

Definition merge_source_combo_addItem (t : string) : Py unit :=
  update (fun g => set_merge_source_combo (addItem t (merge_source_combo g)) g).

Definition merge_target_combo_clear : Py unit :=
  update (fun g => set_merge_target_combo (clear (merge_target_combo g)) g).

Definition merge_target_combo_addItem (t : string) : Py unit :=
  update (fun g => set_merge_target_combo (addItem t (merge_target_combo g)) g).

Definition delete_branch_combo_clear : Py unit :=
  update (fun g => set_delete_branch_combo (clear (delete_branch_combo g)) g).

Definition delete_branch_combo_addItem (t : string) : Py unit :=
  update (fun g => set_delete_branch_combo (addItem t (delete_branch_combo g)) g).

Definition rename_branch_combo_clear : Py unit :=
  update (fun g => set_rename_branch_combo (clear (rename_branch_combo g)) g).

Definition rename_branch_combo_addItem (t : string) : Py unit :=
  update (fun g => set_rename_branch_combo (addItem t (rename_branch_combo g)) g).

Definition branch_for_push_clear : Py unit :=
  update (fun g => set_branch_for_push (clear (branch_for_push g)) g).

Definition branch_for_push_addItem (t : string) : Py unit :=
  update (fun g => set_branch_for_push (addItem t (branch_for_push g)) g).

Definition remote_list_clear : Py unit :=
  update (fun g => set_remote_list (clear (remote_list g)) g).

Definition remote_list_addItem (t : string) : Py unit :=
  update (fun g => set_remote_list (addItem t (remote_list g)) g).

Section Handlers.

Variable os : OS.

(** [subprocess.run(args, cwd=cwd, capture_output=True, text=True,
    check=check)]. The call is recorded; a working directory that does
    not exist, or an executable that cannot be started, raises
    [OSError]; with [check], a non-zero exit status raises
    [CalledProcessError]. *)
Definition subprocess_run (argv : list string) (dir : string) (check : bool)
  : Py CompletedProcess :=
  fun w =>
    let call := mkCall argv dir false in
    let w' := mkWorld (self w) (dialogs w) (calls w ++ [call]) in
    if negb (isdir os dir) then (Raised (OSError dir), w')
    else
      match launch os (calls w) call with
      | NotStarted => (Raised (OSError (hd "" argv)), w')
      | Undecodable => (Raised UnicodeDecodeError, w')
      | Exit result =>
          if check && negb (returncode result =? 0)%Z
          then (Raised (CalledProcessError (returncode result) argv), w')
          else (Returned result, w')
      end.

(** The clause every handler but two ends with:
    [except subprocess.CalledProcessError as err:
       self.show_error(str(err))]. *)
Definition except_CalledProcessError : clause unit :=
  except class_CalledProcessError (fun err => show_error (StrOf err)).

(** ** Basic commands *)

Definition git_init : Py unit :=
  try (dir <- read repo_path ;;
       result <- subprocess_run ["git"; "init"] dir true ;;
       output_text_append (stdout result) ;;
       status_label_setText "Repository initialized")
    [except_CalledProcessError].

Definition git_add : Py unit :=
  try (dir <- read repo_path ;;
       subprocess_run ["git"; "add"; "."] dir true ;;
       output_text_append "Files added to staging area" ;;
       status_label_setText "Files staged")
    [except_CalledProcessError].

Definition git_commit : Py unit :=
  try (text <- read commit_msg ;;
       let msg := strip text in
       if is_empty msg then show_error (Text "Please enter a commit message")
       else
         dir <- read repo_path ;;
         result <- subprocess_run ["git"; "commit"; "-m"; msg] dir true ;;
         output_text_append (stdout result) ;;
         status_label_setText "Changes committed")
    [except_CalledProcessError].

Definition git_push : Py unit :=
  try (branch <- read current_branch ;;
       dir <- read repo_path ;;
       subprocess_run ["git"; "push"; "origin"; branch] dir true ;;
       output_text_append "Changes pushed successfully!" ;;
       status_label_setText "Changes pushed to remote")
    [except_CalledProcessError].

Definition git_status : Py unit :=
  try (dir <- read repo_path ;;
       result <- subprocess_run ["git"; "status"] dir true ;;
       output_text_append (stdout result))
    [except_CalledProcessError].

(** ** Advanced commands *)

Definition create_branch : Py unit :=
  try (text <- read new_branch_name ;;
       let branch := strip text in
       if is_empty branch then show_error (Text "Please enter a branch name")
       else
         dir <- read repo_path ;;
         result <- subprocess_run ["git"; "checkout"; "-b"; branch] dir true ;;
         advanced_output_append (stdout result) ;;
         status_label_setText ("Created and switched to branch: " ++ branch))
    [except_CalledProcessError].

Definition delete_branch : Py unit :=
  try (combo <- read delete_branch_combo ;;
       let branch := currentText combo in
       if is_empty branch
       then show_error (Text "Please select a branch to delete")
       else
         dir <- read repo_path ;;
         result <- subprocess_run ["git"; "branch"; "-d"; branch] dir true ;;
         advanced_output_append (stdout result) ;;
         status_label_setText ("Deleted branch: " ++ branch))
    [except_CalledProcessError].

Definition rename_branch : Py unit :=
  try (combo <- read rename_branch_combo ;;
       text <- read new_branch_name_edit ;;
       let old_branch := strip (currentText combo) in
       let new_branch := strip text in
       if is_empty old_branch || is_empty new_branch
       then show_error (Text "Current or new branch name cannot be empty.")
       else
         dir <- read repo_path ;;
         result <- subprocess_run
                     ["git"; "branch"; "-m"; old_branch; new_branch] dir true ;;
         advanced_output_append (stdout result) ;;
         status_label_setText
           ("Branch '" ++ old_branch ++ "' renamed to '" ++ new_branch ++ "'."))
    [except_CalledProcessError].

(** The first loop of [refresh_branches]: the local list [branches]
    gets, for each piece of the output between line feeds, the piece
    without its asterisks and surrounding whitespace, unless that is
    empty. *)
Definition branch_names (out : string) : list string :=
  fold_left
    (fun (branches : list string) (line : string) =>
       let branch := strip (remove_char star line) in
       if is_empty branch then branches else (branches ++ [branch])%list)
    (split LF_char out) [].

Definition refresh_branches : Py unit :=
  try (dir <- read repo_path ;;
       if is_empty (strip dir) then ret tt
       else
         result <- subprocess_run ["git"; "branch"; "--list"] dir true ;;
         let branches := branch_names (stdout result) in
         merge_source_combo_clear ;;
         merge_target_combo_clear ;;
         delete_branch_combo_clear ;;
         rename_branch_combo_clear ;;
         branch_for_push_clear ;;
         for_each branches
           (fun branch =>
              merge_source_combo_addItem branch ;;
              merge_target_combo_addItem branch ;;
              delete_branch_combo_addItem branch ;;
              rename_branch_combo_addItem branch ;;
              branch_for_push_addItem branch))
    [except class_CalledProcessError
       (fun err => show_error (Prefixed "Failed to refresh branches: " err));
     except class_Exception
       (fun err =>
          show_error
            (Prefixed "Unexpected error while refreshing branches: " err))].

Definition handle_merge_branches : Py unit :=
  try (source <- read merge_source_combo ;;
       target <- read merge_target_combo ;;
       let source_branch := strip (currentText source) in
       let target_branch := strip (currentText target) in
       if is_empty source_branch || is_empty target_branch
       then show_error (Text "Please select source and target branches.")
       else
         dir <- read repo_path ;;
         subprocess_run ["git"; "checkout"; target_branch] dir true ;;
         dir <- read repo_path ;;
         result_merge <- subprocess_run ["git"; "merge"; source_branch] dir true ;;
         advanced_output_append (stdout result_merge) ;;
         status_label_setText
           ("Branch '" ++ source_branch ++ "' merged into '"
            ++ target_branch ++ "'."))
    [except_CalledProcessError].

Definition git_fetch : Py unit :=
  try (dir <- read repo_path ;;
       result <- subprocess_run ["git"; "fetch"] dir true ;;
       advanced_output_append (stdout result) ;;
       status_label_setText "Fetched latest updates from remote")
    [except_CalledProcessError].

Definition refresh_branch_history : Py unit :=
  try (dir <- read repo_path ;;
       result <- subprocess_run
                   ["git"; "log"; "--oneline"; "--graph"; "--all"] dir true ;;
       history_text_clear ;;
       history_text_append (stdout result) ;;
       status_label_setText "Branch history refreshed.")
    [except_CalledProcessError].

(** ** Remotes *)

Definition add_remote : Py unit :=
  try (text <- read remote_url_lineedit ;;
       let url := strip text in
       if is_empty url
       then show_error (Text "Please enter remote repository URL")
       else
         dir <- read repo_path ;;
         subprocess_run ["git"; "remote"; "add"; "origin"; url] dir true ;;
         output_text_append "Remote repository added successfully." ;;
         status_label_setText "Remote added")
    [except_CalledProcessError].

Definition add_remote_custom : Py unit :=
  try (name <- read remote_name ;;
       url <- read remote_url ;;
       let r_name := strip name in
       let r_url := strip url in
       if is_empty r_name || is_empty r_url
       then show_error (Text "Please enter remote name and URL")
       else
         dir <- read repo_path ;;
         result <- subprocess_run
                     ["git"; "remote"; "add"; r_name; r_url] dir true ;;
         advanced_output_append (stdout result) ;;
         status_label_setText ("Remote '" ++ r_name ++ "' added."))
    [except_CalledProcessError].

Definition refresh_remotes : Py unit :=
  try (dir <- read repo_path ;;
       result <- subprocess_run ["git"; "remote"] dir true ;;
       let remote_names := split_whitespace (stdout result) in
       remote_list_clear ;;
       for_each remote_names remote_list_addItem ;;
       dir <- read repo_path ;;
       branch_list_result <-
         subprocess_run ["git"; "branch"; "--list"] dir true ;;
       branch_for_push_clear ;;
       for_each (split LF_char (stdout branch_list_result))
         (fun br_line =>
            let br := strip (remove_char star br_line) in
            if is_empty br then ret tt else branch_for_push_addItem br) ;;
       advanced_output_append "Remote list refreshed.")
    [except_CalledProcessError].

Definition git_push_advanced : Py unit :=
  try (combo <- read branch_for_push ;;
       let branch := strip (currentText combo) in
       if is_empty branch then show_error (Text "No branch selected for push")
       else
         force <- read force_push ;;
         let argv :=
           if force then ["git"; "push"; "origin"; "--force"; branch]
           else ["git"; "push"; "origin"; branch] in
         dir <- read repo_path ;;
         result <- subprocess_run argv dir true ;;
         advanced_output_append (stdout result) ;;
         status_label_setText ("Pushed to remote (branch: " ++ branch ++ ")"))
    [except_CalledProcessError].

Definition git_pull : Py unit :=
  try (dir <- read repo_path ;;
       result <- subprocess_run ["git"; "pull"] dir true ;;
       output_text_append (stdout result) ;;
       advanced_output_append (stdout result) ;;
       status_label_setText "Changes pulled from remote")
    [except_CalledProcessError].

(** ** Toolbar and terminal *)

Definition change_branch (branch_name : string) : Py unit :=
  try (update (set_current_branch branch_name) ;;
       dir <- read repo_path ;;
       result <- subprocess_run
                   ["git"; "checkout"; "-b"; branch_name] dir true ;;
       (if negb (returncode result =? 0)%Z
        then
          dir <- read repo_path ;;
          subprocess_run ["git"; "checkout"; branch_name] dir true ;;
          ret tt
        else ret tt) ;;
       status_label_setText ("Switched to branch: " ++ branch_name))
    [except_CalledProcessError].

Definition execute_command : Py unit :=
  text <- read command_input ;;
  path <- read repo_path ;;
  let command := strip text in
  let path := strip path in
  if is_empty path
  then show_error (Text "Please select a repository path first")
  else if negb (startswith command "git")
  then show_error (Text "Only git commands are allowed")
  else
    try (let command_list := split_whitespace command in
         result <- subprocess_run command_list path true ;;
         terminal_output_append
           ("$ " ++ command ++ LF ++ stdout result))
      [except class_CalledProcessError
         (fun err => show_error (Prefixed "Command failed: " err));
       except class_OSError
         (fun err => show_error (Prefixed "System error: " err));
       except class_Exception
         (fun err => show_error (Prefixed "Unexpected error: " err))] ;;
    command_input_clear.

End Handlers.

(** * How a handler ends

    [escapes h w e]: the handler leaves through the exception [e], which
    no clause caught, and no dialog told the user. [reports h w m]: the
    handler returns after showing the dialog [m]. *)
Definition escapes (h : Py unit) (w : World) (e : exn) : Prop :=
  fst (h w) = Raised e /\ dialogs (snd (h w)) = dialogs w.

Definition reports (h : Py unit) (w : World) (m : message) : Prop :=
  fst (h w) = Returned tt /\ dialogs (snd (h w)) = (dialogs w ++ [m])%list.

(** The call [subprocess.run(argv, cwd=dir)] as it is recorded. *)
Definition call_of (argv : list string) (dir : string) : Call :=
  mkCall argv dir false.

(** * The wording of the specification, for comparison

    Definitions written from the sentences of the specification, not from
    the source; the theorems below compare the handlers with them. *)

Module Spec.

(** "stripping leading [*]": the current-branch marker that opens a
    line is dropped. *)
Definition drop_marker (line : string) : string :=
  match line with
  | "" => ""
  | String c rest => if Ascii.eqb c star then rest else line
  end.

(** "stripping leading [*] and surrounding whitespace per line". *)
Definition branch_of_line (line : string) : string :=
  strip (drop_marker (strip line)).

(** "... per line, discarding empty lines", in order. *)
Definition branch_list (raw : string) : list string :=
  filter (fun b => negb (is_empty b))
    (map branch_of_line (split LF_char raw)).

(** No asterisk at all. *)
Fixpoint no_star (s : string) : bool :=
  match s with
  | "" => true
  | String c rest => negb (Ascii.eqb c star) && no_star rest
  end.

(** A line in which an asterisk occurs at most as the marker in front of
    the name. Not every line git prints is one: in column layout the
    marker stands in the middle of a line. *)
Definition marker_only (line : string) : bool :=
  no_star (drop_marker (lstrip line)).

Definition listing (raw : string) : bool :=
  forallb marker_only (split LF_char raw).

(** Only whitespace. *)
Fixpoint blank (s : string) : bool :=
  match s with
  | "" => true
  | String c rest => isspace c && blank rest
  end.

(** No whitespace. *)
Fixpoint solid (s : string) : bool :=
  match s with
  | "" => true
  | String c rest => negb (isspace c) && solid rest
  end.

(** A token: not empty, no whitespace in it. *)
Definition token (s : string) : bool := negb (is_empty s) && solid s.

(** The text ends here or goes on with whitespace. *)
Definition at_gap (s : string) : bool :=
  match s with
  | "" => true
  | String c _ => isspace c
  end.

(** "whitespace-separated tokens", in order: [tokens raw ts] when [raw]
    is whitespace, then the first token, then a gap, and so on. *)
Inductive tokens : string -> list string -> Prop :=
| tokens_none (s : string) :
    blank s = true -> tokens s []
| tokens_next (pre t rest : string) (ts : list string) :
    blank pre = true -> token t = true -> at_gap rest = true ->
    tokens rest ts -> tokens (pre ++ t ++ rest) (t :: ts).

End Spec.

(** * Sample operating systems and worlds *)

Module Sample.

(** Every directory exists and every process exits with status 0 after
    printing [out]. *)
Definition os_ok (out : string) : OS :=
  mkOS (fun _ => true) (fun _ _ => Exit (mkCompleted 0 out "")).

(** No directory exists. *)
Definition os_no_dir : OS :=
  mkOS (fun _ => false) (fun _ _ => Exit (mkCompleted 0 "" "")).

(** Every directory exists; a process whose subcommand (the second
    element of its argument vector) is [sub] exits with [status],
    every other one with 0. *)
Definition os_failing (sub : string) (status : Z) : OS :=
  mkOS (fun _ => true)
    (fun _ call =>
       if String.eqb (nth 1 (args call) "") sub
       then Exit (mkCompleted status "" "fatal")
       else Exit (mkCompleted 0 "" "")).

Definition world (g : GitGUI) : World := mkWorld g [] [].

(** The window after the user picked the repository [/repo]. *)
Definition gui : GitGUI := set_repo_path "/repo" init_gui.

(** The raw texts of the two parsing examples. *)
Definition branch_output : string :=
  "* main" ++ LF ++ "  develop" ++ LF ++ "  feature/x" ++ LF.

Definition remote_output : string := "origin upstream" ++ LF.

(** The merge form filled in: [feature] into [main]. *)
Definition merge_gui : GitGUI :=
  set_merge_source_combo (mkCombo ["main"; "feature"] (Some 1) "Source branch...")
    (set_merge_target_combo
       (mkCombo ["main"; "feature"] (Some 0) "Target branch...") gui).

End Sample.

(** * [MaterialButton.adjust_color]

    The static method that darkens or lightens a colour written
    [#RRGGBB]; the button style sheet calls it with -20 (hover) and -40
    (pressed). *)

Module MaterialButton.

(** The value of a hexadecimal digit, in either case. *)
Definition hex_digit (c : ascii) : option Z :=
  let n := nat_of_ascii c in
  if ((48 <=? n) && (n <=? 57))%nat then Some (Z.of_nat n - 48)%Z
  else if ((65 <=? n) && (n <=? 70))%nat then Some (Z.of_nat n - 55)%Z
  else if ((97 <=? n) && (n <=? 102))%nat then Some (Z.of_nat n - 87)%Z
  else None.

Definition is_hex (c : ascii) : bool :=
  match hex_digit c with
  | Some _ => true
  | None => false
  end.

Fixpoint all_hex (s : string) : bool :=
  match s with
  | "" => true
  | String c rest => is_hex c && all_hex rest
  end.

(** The number written by a string of hexadecimal digits. *)
Fixpoint hex_value_from (acc : Z) (s : string) : Z :=
  match s with
  | "" => acc
  | String c rest =>
      hex_value_from
        (16 * acc + match hex_digit c with Some d => d | None => 0 end)%Z rest
  end.

Definition hex_value (s : string) : Z := hex_value_from 0 s.

(** [s.lstrip(c)] for a one-character argument. *)
Fixpoint lstrip_char (c : ascii) (s : string) : string :=
  match s with
  | "" => ""
  | String d rest => if Ascii.eqb d c then lstrip_char c rest else s
  end.

(** The lower-case hexadecimal digit of a number below 16. *)
Definition hex_char (d : Z) : ascii :=
  if (d <? 10)%Z then ascii_of_nat (Z.to_nat (48 + d))
  else ascii_of_nat (Z.to_nat (87 + d)).

(** [f"{n:02x}"] for [0 <= n <= 255], the only numbers that
    [max(0, min(255, ...))] lets through. *)
Definition format_02x (n : Z) : string :=
  String (hex_char (n / 16)) (String (hex_char (n mod 16)) "").

Section AdjustColor.

(** [int(text, 16)], with [None] for [ValueError]. The method relies on
    the library function; the theorems below say which of its facts they
    use. *)
Variable int16 : string -> option Z.

(** [int(clr[i:i + 2], 16)] *)
Definition channel (clr : string) (i : nat) : option Z :=
  int16 (substring i 2 clr).

Definition adjust_color (color_str : string) (amount : Z) : option string :=
  let clr := lstrip_char "#" color_str in
  match channel clr 0, channel clr 2, channel clr 4 with
  | Some r, Some g, Some b =>
      Some ("#"
            ++ format_02x (Z.max 0 (Z.min 255 (r + amount)))
            ++ format_02x (Z.max 0 (Z.min 255 (g + amount)))
            ++ format_02x (Z.max 0 (Z.min 255 (b + amount))))
  | _, _, _ => None
  end.

End AdjustColor.

(** The two facts about [int(text, 16)] that are used: a non-empty
    string of hexadecimal digits is read as its value, and the empty
    string raises [ValueError]. *)
Definition reads_hex (int16 : string -> option Z) : Prop :=
  forall s, s <> "" -> all_hex s = true -> int16 s = Some (hex_value s).

Definition rejects_empty (int16 : string -> option Z) : Prop :=
  int16 "" = None.

(** A reading of [int(text, 16)] that accepts hexadecimal digits only. *)
Definition int16_digits (s : string) : option Z :=
  if is_empty s then None
  else if all_hex s then Some (hex_value s) else None.

(** A lower-case hexadecimal digit. *)
Definition is_lower_hex (c : ascii) : bool :=
  let n := nat_of_ascii c in
  (((48 <=? n) && (n <=? 57)) || ((97 <=? n) && (n <=? 102)))%nat.

(** [#] followed by exactly six lower-case hexadecimal digits. *)
Definition is_color (s : string) : bool :=
  match s with
  | String h (String a (String b (String c (String d (String e
      (String f "")))))) =>
      Ascii.eqb h "#" && is_lower_hex a && is_lower_hex b && is_lower_hex c
      && is_lower_hex d && is_lower_hex e && is_lower_hex f
  | _ => false
  end.

(** [c.lower()] on a hexadecimal digit. *)
Definition lower (c : ascii) : ascii :=
  let n := nat_of_ascii c in
  if ((65 <=? n) && (n <=? 70))%nat then ascii_of_nat (n + 32) else c.

(** The three channels of [#RRGGBB], as numbers. *)
Definition channels (a b c d e f : ascii) : Z * Z * Z :=
  (hex_value (String a (String b "")),
   hex_value (String c (String d "")),
   hex_value (String e (String f ""))).

End MaterialButton.

(** * All the handlers, and what the user typed *)

(** The handlers wired to buttons and to the terminal line. *)
Definition handlers (os : OS) : list (Py unit) :=
  [git_init os; git_add os; git_commit os; git_push os; git_status os;
   create_branch os; delete_branch os; rename_branch os;
   refresh_branches os; handle_merge_branches os; git_fetch os;
   refresh_branch_history os; add_remote os; add_remote_custom os;
   refresh_remotes os; git_push_advanced os; git_pull os;
   execute_command os].

(** The fields and boxes the user fills in, except the terminal line. *)
Definition typed (g : GitGUI) :=
  (repo_path g, commit_msg g, remote_url_lineedit g, new_branch_name g,
   new_branch_name_edit g, remote_name g, remote_url g, force_push g).

(** [grown_by n old new]: [new] is [old] with at most [n] more entries
    at its end. *)
Definition grown_by {A : Type} (n : nat) (old new : list A) : Prop :=
  exists more, new = (old ++ more)%list /\ (List.length more <= n)%nat.

(** A branch name as the refreshes store it: not empty, trimmed, without
    asterisk. *)
Definition clean_name (b : string) : bool :=
  negb (is_empty b) && String.eqb (strip b) b && Spec.no_star b.

(** Every branch combo box holds clean names only, and the remote combo
    box holds tokens only. *)
Definition combos_clean (g : GitGUI) : Prop :=
  Forall (fun b => clean_name b = true) (items (merge_source_combo g))
  /\ Forall (fun b => clean_name b = true) (items (merge_target_combo g))
  /\ Forall (fun b => clean_name b = true) (items (delete_branch_combo g))
  /\ Forall (fun b => clean_name b = true) (items (rename_branch_combo g))
  /\ Forall (fun b => clean_name b = true) (items (branch_for_push g))
  /\ Forall (fun t => Spec.token t = true) (items (remote_list g)).

(** What a handler may do to the world [w]: it leaves the typed text and
    the current branch alone, it adds at most two calls and one dialog
    and removes none, and it keeps the combo boxes clean. *)
Record footprint (w w' : World) : Prop := mkFootprint {
  keeps_typed : typed (self w') = typed (self w);
  keeps_branch : current_branch (self w') = current_branch (self w);
  more_calls : grown_by 2 (calls w) (calls w');
  more_dialogs : grown_by 1 (dialogs w) (dialogs w');
  keeps_clean : combos_clean (self w) -> combos_clean (self w')
}.

(** The handlers that run one fixed command, with its argument vector. *)
Definition commands (os : OS) : list (list string * Py unit) :=
  [(["git"; "init"], git_init os);
   (["git"; "add"; "."], git_add os);
   (["git"; "status"], git_status os);
   (["git"; "pull"], git_pull os);
   (["git"; "fetch"], git_fetch os);
   (["git"; "log"; "--oneline"; "--graph"; "--all"],
    refresh_branch_history os)].

(** The handlers that test a field first: the handler, the test ([not
    ...] in the source) and the text of the dialog. *)
Definition guarded (os : OS) : list (Py unit * (GitGUI -> bool) * string) :=
  [(create_branch os,
    fun g => is_empty (strip (new_branch_name g)),
    "Please enter a branch name");
   (delete_branch os,
    fun g => is_empty (currentText (delete_branch_combo g)),
    "Please select a branch to delete");
   (rename_branch os,
    fun g => is_empty (strip (currentText (rename_branch_combo g)))
             || is_empty (strip (new_branch_name_edit g)),
    "Current or new branch name cannot be empty.");
   (handle_merge_branches os,
    fun g => is_empty (strip (currentText (merge_source_combo g)))
             || is_empty (strip (currentText (merge_target_combo g))),
    "Please select source and target branches.");
   (add_remote os,
    fun g => is_empty (strip (remote_url_lineedit g)),
    "Please enter remote repository URL");
   (add_remote_custom os,
    fun g => is_empty (strip (remote_name g))
             || is_empty (strip (remote_url g)),
    "Please enter remote name and URL");
   (git_push_advanced os,
    fun g => is_empty (strip (currentText (branch_for_push g))),
    "No branch selected for push")].

(** A session: handlers run one after the other, each on the world the
    one before left. *)
Definition session (hs : list (Py unit)) (w : World) : World :=
  fold_left (fun world h => snd (h world)) hs w.

(** * The branch list, every asterisk removed

    The reading of the branch parser that holds for every text: an
    asterisk is dropped wherever it stands in a line, not only in front
    of the name. Written on the characters of the line, independently of
    [remove_char]. *)
Definition every_asterisk_removed (line : string) : string :=
  string_of_list_ascii
    (filter (fun c => negb (Ascii.eqb c star)) (list_ascii_of_string line)).

Definition branch_list_without_asterisks (raw : string) : list string :=
  filter (fun b => negb (is_empty b))
    (map (fun line => strip (every_asterisk_removed line))
       (split LF_char raw)).

(** What [git branch --list] prints in column layout for the branches
    [develop], [feature/x] and the current branch [main]. *)
Definition column_output : string :=
  "  develop     feature/x * main" ++ LF.

(** * The repository dialog *)

(** [browse_repository]; [chosen] is what
    [QFileDialog.getExistingDirectory] returned, the empty string when
    the user cancelled. *)
Definition browse_repository (chosen : string) : Py unit :=
  if is_empty chosen then ret tt else update (set_repo_path chosen).

(** The typed fields and boxes other than the repository path. *)
Definition typed_besides_path (g : GitGUI) :=
  (commit_msg g, remote_url_lineedit g, new_branch_name g,
   new_branch_name_edit g, remote_name g, remote_url g, force_push g).

(** The handlers of the model: the eighteen command handlers, the
    repository dialog with any answer, the toolbar branch change with
    any name. *)
Definition is_command (os : OS) (h : Py unit) : Prop := In h (handlers os).

Definition is_browse (h : Py unit) : Prop :=
  exists chosen, h = browse_repository chosen.

Definition is_branch_change (os : OS) (h : Py unit) : Prop :=
  exists branch_name, h = change_branch os branch_name.

(** * Facts about the string methods *)

Lemma append_empty_r (s : string) : s ++ "" = s.
Proof. induction s as [|c s IH]; simpl; [reflexivity | now rewrite IH]. Qed.

Lemma append_assoc (a b c : string) : (a ++ b) ++ c = a ++ (b ++ c).
Proof. induction a as [|x a IH]; simpl; [reflexivity | now rewrite IH]. Qed.

Lemma is_empty_true (s : string) : is_empty s = true -> s = "".
Proof. destruct s; simpl; [reflexivity | discriminate]. Qed.

Lemma star_not_space : isspace star = false.
Proof. reflexivity. Qed.

Lemma isspace_not_star (c : ascii) :
  isspace c = true -> Ascii.eqb c star = false.
Proof.
  intros Hc. destruct (Ascii.eqb c star) eqn:E; [|reflexivity].
  apply Ascii.eqb_eq in E. subst c. discriminate Hc.
Qed.

(** ** [split()] against the relation [Spec.tokens] *)

Lemma flush_token (t : string) : Spec.token t = true -> flush t = [t].
Proof.
  unfold Spec.token, flush. destruct t; simpl; [discriminate | reflexivity].
Qed.

Lemma split_scan_blank (s : string) :
  Spec.blank s = true -> split_scan "" s = [].
Proof.
  induction s as [|c s IH]; simpl; intros H; [reflexivity|].
  apply andb_prop in H as [Hc Hs]. rewrite Hc. simpl. now apply IH.
Qed.

Lemma split_scan_skip (pre s : string) :
  Spec.blank pre = true -> split_scan "" (pre ++ s) = split_scan "" s.
Proof.
  induction pre as [|c pre IH]; simpl; intros H; [reflexivity|].
  apply andb_prop in H as [Hc Hs]. rewrite Hc. simpl. now apply IH.
Qed.

Lemma split_scan_solid (t : string) :
  Spec.solid t = true ->
  forall acc s, split_scan acc (t ++ s) = split_scan (acc ++ t) s.
Proof.
  induction t as [|c t IH]; simpl; intros H acc s.
  - now rewrite append_empty_r.
  - apply andb_prop in H as [Hc Ht].
    apply negb_true_iff in Hc. rewrite Hc.
    rewrite IH by assumption. now rewrite append_assoc.
Qed.

Lemma split_scan_at_gap (t rest : string) :
  Spec.token t = true -> Spec.at_gap rest = true ->
  split_scan t rest = t :: split_scan "" rest.
Proof.
  intros Ht Hgap. destruct rest as [|c rest]; simpl in *.
  - now rewrite flush_token.
  - rewrite Hgap. now rewrite flush_token.
Qed.

(** Whatever satisfies the relation is what the scan returns. *)
Lemma tokens_unique (raw : string) (ts : list string) :
  Spec.tokens raw ts -> split_whitespace raw = ts.
Proof.
  unfold split_whitespace.
  induction 1 as [s Hs | pre t rest ts Hpre Ht Hgap _ IH].
  - now apply split_scan_blank.
  - rewrite split_scan_skip by assumption.
    pose proof Ht as Hsolid. unfold Spec.token in Hsolid.
    apply andb_prop in Hsolid as [_ Hsolid].
    rewrite split_scan_solid by assumption. simpl.
    rewrite split_scan_at_gap by assumption. now rewrite IH.
Qed.

Lemma tokens_after_space (c : ascii) (s : string) (ts : list string) :
  isspace c = true -> Spec.tokens s ts -> Spec.tokens (String c s) ts.
Proof.
  intros Hc H. inversion H as [s' Hs | pre t rest ts' Hpre Ht Hgap Hrest]; subst.
  - constructor. simpl. now rewrite Hc.
  - change (String c (pre ++ t ++ rest)) with (String c pre ++ t ++ rest).
    constructor; try assumption. simpl. now rewrite Hc.
Qed.

Lemma solid_snoc (t : string) (c : ascii) :
  Spec.solid t = true -> isspace c = false ->
  Spec.solid (t ++ String c "") = true.
Proof.
  induction t as [|d t IH]; simpl; intros Ht Hc.
  - now rewrite Hc.
  - apply andb_prop in Ht as [Hd Ht]. rewrite Hd. simpl. now apply IH.
Qed.

Lemma tokens_scan (s : string) :
  forall acc, Spec.solid acc = true ->
              Spec.tokens (acc ++ s) (split_scan acc s).
Proof.
  induction s as [|c s IH]; intros acc Hacc.
  - simpl. unfold flush. destruct acc as [|d acc]; simpl.
    + constructor. reflexivity.
    + change (String d (acc ++ ""))
        with ("" ++ String d acc ++ "").
      constructor; try reflexivity.
      * unfold Spec.token. simpl. exact Hacc.
      * constructor. reflexivity.
  - simpl. destruct (isspace c) eqn:Hc.
    + assert (Hrest : Spec.tokens (String c s) (split_scan "" s)).
      { apply tokens_after_space; [assumption|]. apply (IH ""). reflexivity. }
      unfold flush. destruct acc as [|d acc]; simpl.
      * exact Hrest.
      * change (String d (acc ++ String c s))
          with ("" ++ String d acc ++ String c s).
        constructor; try reflexivity; assumption.
    + replace (acc ++ String c s) with ((acc ++ String c "") ++ s)
        by (rewrite append_assoc; reflexivity).
      apply IH. now apply solid_snoc.
Qed.

(** The scan returns something that satisfies the relation. *)
Lemma tokens_split_whitespace (raw : string) :
  Spec.tokens raw (split_whitespace raw).
Proof. apply (tokens_scan raw ""). reflexivity. Qed.


(** ** [strip()] and [replace('*', '')] against [Spec.branch_of_line] *)

Lemma lstrip_idempotent (s : string) : lstrip (lstrip s) = lstrip s.
Proof.
  induction s as [|c s IH]; simpl; [reflexivity|].
  destruct (isspace c) eqn:Hc; [exact IH | simpl; now rewrite Hc].
Qed.

Lemma rstrip_idempotent (s : string) : rstrip (rstrip s) = rstrip s.
Proof.
  induction s as [|c s IH]; simpl; [reflexivity|].
  destruct (isspace c && is_empty (rstrip s)) eqn:E; [reflexivity|].
  simpl. rewrite IH, E. reflexivity.
Qed.

Lemma rstrip_keeps_head (c : ascii) (s : string) :
  isspace c = false -> rstrip (String c s) = String c (rstrip s).
Proof. intros Hc. simpl. now rewrite Hc. Qed.

Lemma lstrip_rstrip (s : string) : lstrip (rstrip s) = rstrip (lstrip s).
Proof.
  induction s as [|c s IH]; [reflexivity|].
  destruct (isspace c) eqn:Hc.
  - simpl. rewrite Hc. simpl.
    destruct (is_empty (rstrip s)) eqn:E.
    + apply is_empty_true in E. rewrite E in IH. simpl in IH. exact IH.
    + simpl. rewrite Hc. exact IH.
  - rewrite rstrip_keeps_head by assumption. simpl. rewrite Hc.
    simpl. now rewrite Hc.
Qed.

Lemma strip_rstrip (s : string) : strip (rstrip s) = strip s.
Proof.
  unfold strip. now rewrite lstrip_rstrip, rstrip_idempotent.
Qed.

Lemma strip_idempotent (s : string) : strip (strip s) = strip s.
Proof.
  unfold strip. now rewrite lstrip_rstrip, rstrip_idempotent, lstrip_idempotent.
Qed.

Lemma strip_skips_space (c : ascii) (s : string) :
  isspace c = true -> strip (String c s) = strip s.
Proof. intros Hc. unfold strip. simpl. now rewrite Hc. Qed.

Lemma remove_char_no_star (s : string) :
  Spec.no_star s = true -> remove_char star s = s.
Proof.
  induction s as [|c s IH]; simpl; intros H; [reflexivity|].
  apply andb_prop in H as [Hc Hs]. apply negb_true_iff in Hc.
  rewrite Hc. now rewrite IH.
Qed.

(** On a line whose only asterisk is the marker, dropping every
    asterisk and dropping the marker give the same name. *)
Lemma line_refines (line : string) :
  Spec.marker_only line = true ->
  strip (remove_char star line) = Spec.branch_of_line line.
Proof.
  unfold Spec.branch_of_line.
  induction line as [|c r IH]; intros H; [reflexivity|].
  destruct (isspace c) eqn:Hc.
  - unfold Spec.marker_only in H. simpl in H. rewrite Hc in H.
    simpl remove_char. rewrite (isspace_not_star c Hc).
    rewrite (strip_skips_space c (remove_char star r) Hc).
    rewrite (strip_skips_space c r Hc). now apply IH.
  - unfold Spec.marker_only in H. simpl in H. rewrite Hc in H.
    unfold Spec.drop_marker in H.
    destruct (Ascii.eqb c star) eqn:Hstar.
    + simpl remove_char. rewrite Hstar.
      rewrite remove_char_no_star by assumption.
      unfold strip at 3. simpl lstrip. rewrite Hc.
      rewrite rstrip_keeps_head by assumption.
      unfold Spec.drop_marker. rewrite Hstar. now rewrite strip_rstrip.
    + rewrite remove_char_no_star by assumption.
      unfold strip at 3. simpl lstrip. rewrite Hc.
      rewrite rstrip_keeps_head by assumption.
      unfold Spec.drop_marker. rewrite Hstar.
      rewrite <- rstrip_keeps_head by assumption.
      rewrite strip_rstrip. reflexivity.
Qed.

Lemma branch_names_from (lines acc : list string) :
  fold_left
    (fun (branches : list string) (line : string) =>
       let branch := strip (remove_char star line) in
       if is_empty branch then branches else (branches ++ [branch])%list)
    lines acc
  = (acc ++ filter (fun b => negb (is_empty b))
       (map (fun line => strip (remove_char star line)) lines))%list.
Proof.
  revert acc. induction lines as [|l lines IH]; intros acc; simpl.
  - now rewrite app_nil_r.
  - rewrite IH. destruct (is_empty (strip (remove_char star l))); simpl.
    + reflexivity.
    + now rewrite <- app_assoc.
Qed.

Lemma branch_names_filter (out : string) :
  branch_names out
  = filter (fun b => negb (is_empty b))
      (map (fun line => strip (remove_char star line)) (split LF_char out)).
Proof. unfold branch_names. now rewrite branch_names_from. Qed.

(** The list built by [refresh_branches] is the list of the
    specification on every listing. *)
Lemma branch_names_refines (raw : string) :
  Spec.listing raw = true -> branch_names raw = Spec.branch_list raw.
Proof.
  intros H. rewrite branch_names_filter. unfold Spec.branch_list.
  f_equal. apply map_ext_in. intros line Hin. apply line_refines.
  unfold Spec.listing in H. rewrite forallb_forall in H. now apply H.
Qed.


(** * The handlers *)

Section HandlerFacts.

Variable os : OS.

(** The three ways a checked call ends: it returns a result of status
    0; it raises [CalledProcessError] with the status and the command;
    it raises something else. Each time the call is recorded and
    nothing else changes. *)
Lemma subprocess_run_cases (argv : list string) (dir : string) (w : World) :
  let w' := mkWorld (self w) (dialogs w) (calls w ++ [call_of argv dir]) in
  (exists r, subprocess_run os argv dir true w = (Returned r, w')
             /\ returncode r = 0%Z
             /\ isdir os dir = true
             /\ launch os (calls w) (call_of argv dir) = Exit r)
  \/ (exists r, subprocess_run os argv dir true w
                = (Raised (CalledProcessError (returncode r) argv), w')
                /\ returncode r <> 0%Z)
  \/ (exists e, subprocess_run os argv dir true w = (Raised e, w')
                /\ class_CalledProcessError e = false).
Proof.
  unfold subprocess_run, call_of. simpl.
  destruct (isdir os dir) eqn:Hdir; simpl.
  - destruct (launch os (calls w) (mkCall argv dir false)) as [| |r] eqn:HL.
    + right. right. eexists. repeat split.
    + right. right. eexists. repeat split.
    + destruct (returncode r =? 0)%Z eqn:Hrc; simpl.
      * left. exists r. apply Z.eqb_eq in Hrc. repeat split; assumption.
      * right. left. exists r. apply Z.eqb_neq in Hrc. split; [reflexivity | assumption].
  - right. right. eexists. repeat split.
Qed.

Lemma subprocess_run_missing_dir (argv : list string) (dir : string)
      (check : bool) (w : World) :
  isdir os dir = false ->
  subprocess_run os argv dir check w
  = (Raised (OSError dir),
     mkWorld (self w) (dialogs w) (calls w ++ [call_of argv dir])).
Proof. intros H. unfold subprocess_run. rewrite H. reflexivity. Qed.

Lemma subprocess_run_records (argv : list string) (dir : string)
      (check : bool) (w : World) :
  snd (subprocess_run os argv dir check w)
  = mkWorld (self w) (dialogs w) (calls w ++ [call_of argv dir]).
Proof.
  unfold subprocess_run, call_of.
  destruct (negb (isdir os dir)); [reflexivity|].
  destruct (launch os (calls w) (mkCall argv dir false)); try reflexivity.
  destruct (check && negb (returncode result =? 0)%Z); reflexivity.
Qed.

(** Unfolding a handler down to its calls of [subprocess.run]. *)
Ltac enter h :=
  unfold h, try, bind, read, ret; cbn -[subprocess_run].

Ltac settle :=
  unfold show_error, update, status_label_setText, output_text_append,
    advanced_output_append, terminal_output_append, history_text_clear,
    history_text_append, command_input_clear, bind, ret;
  cbn -[subprocess_run].

(** Case analysis on the next call of [subprocess.run] in the goal. *)
Ltac next_call :=
  match goal with
  | |- context [subprocess_run os ?argv ?dir true ?w] =>
      let r := fresh "r" in
      let e := fresh "e" in
      let Hrun := fresh "Hrun" in
      let Hrc := fresh "Hrc" in
      destruct (subprocess_run_cases argv dir w)
        as [(r & Hrun & Hrc & _) | [(r & Hrun & Hrc) | (e & Hrun & Hrc)]];
      rewrite Hrun; cbn -[subprocess_run]
  end.

(** C8. A commit whose message is empty once trimmed is refused by the
    handler itself: it shows the dialog "Please enter a commit
    message", returns, and calls no process; nothing else changes. *)
Theorem commit_empty_message_rejected (w : World) :
  strip (commit_msg (self w)) = "" ->
  git_commit os w
  = (Returned tt,
     mkWorld (self w)
       (dialogs w ++ [Text "Please enter a commit message"]) (calls w)).
Proof.
  intros H. enter git_commit. rewrite H. reflexivity.
Qed.

(** [change_branch] calls [subprocess.run] once, with
    [checkout -b <branch>], whatever happens. *)
Lemma change_branch_single_call (branch_name : string) (w : World) :
  calls (snd (change_branch os branch_name w))
  = (calls w
     ++ [call_of ["git"; "checkout"; "-b"; branch_name]
           (repo_path (self w))])%list.
Proof.
  enter change_branch. settle. next_call.
  - rewrite Hrc. reflexivity.
  - settle. reflexivity.
  - destruct e; try discriminate; reflexivity.
Qed.

Lemma change_branch_state (branch_name : string) (w : World) :
  current_branch (self (snd (change_branch os branch_name w))) = branch_name
  /\ repo_path (self (snd (change_branch os branch_name w)))
     = repo_path (self w).
Proof.
  enter change_branch. settle. next_call.
  - rewrite Hrc. split; reflexivity.
  - settle. split; reflexivity.
  - destruct e; try discriminate; split; reflexivity.
Qed.

Lemma git_push_call (w : World) :
  calls (snd (git_push os w))
  = (calls w
     ++ [call_of ["git"; "push"; "origin"; current_branch (self w)]
           (repo_path (self w))])%list.
Proof.
  enter git_push. next_call.
  - reflexivity.
  - settle. reflexivity.
  - destruct e; try discriminate; reflexivity.
Qed.

(** C4. When [checkout -b <branch>] exits with a status other than 0,
    [change_branch] shows the error of that call and returns: the call
    is checked, so the exception is raised before the return code is
    tested, and the plain [checkout <branch>] written as the fallback
    is not run. The status label keeps its text. *)
Theorem change_branch_failure_is_not_retried
        (branch_name : string) (w : World) (r : CompletedProcess) :
  let create := ["git"; "checkout"; "-b"; branch_name] in
  let dir := repo_path (self w) in
  isdir os dir = true ->
  launch os (calls w) (call_of create dir) = Exit r ->
  returncode r <> 0%Z ->
  reports (change_branch os branch_name) w
    (StrOf (CalledProcessError (returncode r) create))
  /\ calls (snd (change_branch os branch_name w))
     = (calls w ++ [call_of create dir])%list
  /\ status_label (self (snd (change_branch os branch_name w)))
     = status_label (self w).
Proof.
  intros create dir Hdir Hlaunch Hrc.
  split; [|split]; [| apply change_branch_single_call |].
  - unfold reports. enter change_branch. settle.
    unfold subprocess_run. fold dir. rewrite Hdir. cbn.
    unfold call_of in Hlaunch. fold create. rewrite Hlaunch.
    apply Z.eqb_neq in Hrc. rewrite Hrc. cbn. split; reflexivity.
  - enter change_branch. settle.
    unfold subprocess_run. fold dir. rewrite Hdir. cbn.
    unfold call_of in Hlaunch. fold create. rewrite Hlaunch.
    apply Z.eqb_neq in Hrc. rewrite Hrc. cbn. reflexivity.
Qed.

(** C5. [change_branch] stores the name in [current_branch] before it
    launches the checkout, so the name is stored however the checkout
    ends (success, error dialog or escaping exception); the next basic
    push then runs [git push origin <name>] in the same directory. *)
Theorem change_branch_sets_current_branch_first
        (branch_name : string) (w : World) :
  let w' := snd (change_branch os branch_name w) in
  current_branch (self w') = branch_name
  /\ calls (snd (git_push os w'))
     = (calls w
        ++ [call_of ["git"; "checkout"; "-b"; branch_name]
              (repo_path (self w));
            call_of ["git"; "push"; "origin"; branch_name]
              (repo_path (self w))])%list.
Proof.
  intros w'. destruct (change_branch_state branch_name w) as [Hb Hp].
  split; [exact Hb|].
  rewrite git_push_call. fold w' in Hb, Hp. rewrite Hb, Hp.
  unfold w'. rewrite change_branch_single_call.
  rewrite <- app_assoc. reflexivity.
Qed.

(** C9. The advanced push of a selected branch [b] (the trimmed text of
    the push combo box, not empty) runs [git push origin b], or
    [git push origin --force b] when the force box is checked; the
    basic push runs [git push origin <current branch>], and has no
    force flag. Nothing else is in the argument vector. *)
Theorem push_argument_vector (w : World) (b : string) :
  strip (currentText (branch_for_push (self w))) = b ->
  b <> "" ->
  calls (snd (git_push_advanced os w))
  = (calls w
     ++ [call_of
           ("git" :: (if force_push (self w)
                      then ["push"; "origin"; "--force"; b]
                      else ["push"; "origin"; b]))
           (repo_path (self w))])%list
  /\ calls (snd (git_push os w))
     = (calls w
        ++ [call_of ("git" :: ["push"; "origin"; current_branch (self w)])
              (repo_path (self w))])%list.
Proof.
  intros Hb Hne. split; [|apply git_push_call].
  enter git_push_advanced. rewrite Hb.
  destruct b as [|c b]; [contradiction Hne; reflexivity|].
  cbn -[subprocess_run].
  destruct (force_push (self w)); next_call;
    solve [ settle; reflexivity
          | destruct e; try discriminate; reflexivity ].
Qed.

(** C10. The text the user typed for a commit message, a branch name, a
    remote name or a remote URL is trimmed and then handed over as one
    element of the argument vector, after the fixed words of the
    command; the call never asks for a shell. The vector has the same
    length whatever the text contains. *)
Theorem free_text_is_one_argument (w : World) :
  let dir := repo_path (self w) in
  let called (h : Py unit) (argv : list string) :=
    calls (snd (h w)) = (calls w ++ [mkCall argv dir false])%list in
  (forall msg, strip (commit_msg (self w)) = msg -> msg <> "" ->
     called (git_commit os) ["git"; "commit"; "-m"; msg])
  /\ (forall branch, strip (new_branch_name (self w)) = branch ->
       branch <> "" ->
       called (create_branch os) ["git"; "checkout"; "-b"; branch])
  /\ (forall old new,
       strip (currentText (rename_branch_combo (self w))) = old ->
       strip (new_branch_name_edit (self w)) = new ->
       old <> "" -> new <> "" ->
       called (rename_branch os) ["git"; "branch"; "-m"; old; new])
  /\ (forall url, strip (remote_url_lineedit (self w)) = url -> url <> "" ->
       called (add_remote os) ["git"; "remote"; "add"; "origin"; url])
  /\ (forall name url, strip (remote_name (self w)) = name ->
       strip (remote_url (self w)) = url -> name <> "" -> url <> "" ->
       called (add_remote_custom os) ["git"; "remote"; "add"; name; url]).
Proof.
  intros dir called. unfold called, dir. repeat split.
  - intros msg Hm Hne. enter git_commit. rewrite Hm.
    destruct msg; [contradiction Hne; reflexivity|].
    cbn -[subprocess_run]. next_call;
      solve [ settle; reflexivity
            | destruct e; try discriminate; reflexivity ].
  - intros branch Hm Hne. enter create_branch. rewrite Hm.
    destruct branch; [contradiction Hne; reflexivity|].
    cbn -[subprocess_run]. next_call;
      solve [ settle; reflexivity
            | destruct e; try discriminate; reflexivity ].
  - intros old new Ho Hn Hone Hnne. enter rename_branch. rewrite Ho, Hn.
    destruct old; [contradiction Hone; reflexivity|].
    destruct new; [contradiction Hnne; reflexivity|].
    cbn -[subprocess_run]. next_call;
      solve [ settle; reflexivity
            | destruct e; try discriminate; reflexivity ].
  - intros url Hu Hne. enter add_remote. rewrite Hu.
    destruct url; [contradiction Hne; reflexivity|].
    cbn -[subprocess_run]. next_call;
      solve [ settle; reflexivity
            | destruct e; try discriminate; reflexivity ].
  - intros name url Hn Hu Hnne Hune. enter add_remote_custom.
    rewrite Hn, Hu.
    destruct name; [contradiction Hnne; reflexivity|].
    destruct url; [contradiction Hune; reflexivity|].
    cbn -[subprocess_run]. next_call;
      solve [ settle; reflexivity
            | destruct e; try discriminate; reflexivity ].
Qed.

(** A handler whose first action is the call, run where the directory
    is missing. *)
Ltac missing_dir h H :=
  unfold escapes; enter h; settle;
  rewrite (subprocess_run_missing_dir _ _ _ _ H);
  cbn; split; reflexivity.

(** C1. Where the directory named in the repository-path field does not
    exist, the handlers that catch only [CalledProcessError] do not
    report anything: the [OSError] raised by [subprocess.run] leaves
    the handler, and no dialog is shown. This holds for init, add,
    push, status, pull, fetch, the history, the remote list and the
    toolbar branch change. *)
Theorem missing_directory_escapes (w : World) :
  let dir := repo_path (self w) in
  isdir os dir = false ->
  escapes (git_init os) w (OSError dir)
  /\ escapes (git_add os) w (OSError dir)
  /\ escapes (git_push os) w (OSError dir)
  /\ escapes (git_status os) w (OSError dir)
  /\ escapes (git_pull os) w (OSError dir)
  /\ escapes (git_fetch os) w (OSError dir)
  /\ escapes (refresh_branch_history os) w (OSError dir)
  /\ escapes (refresh_remotes os) w (OSError dir)
  /\ (forall branch_name,
        escapes (change_branch os branch_name) w (OSError dir)).
Proof.
  intros dir H. unfold dir in *.
  repeat split; try intros branch_name.
  all: first [ missing_dir git_init H | missing_dir git_add H
             | missing_dir git_push H | missing_dir git_status H
             | missing_dir git_pull H | missing_dir git_fetch H
             | missing_dir refresh_branch_history H
             | missing_dir refresh_remotes H
             | missing_dir change_branch H ].
Qed.

(** The same for the handlers that first check a field: once the check
    has passed, the [OSError] escapes. *)
Lemma commit_escapes_on_missing_directory (w : World) :
  isdir os (repo_path (self w)) = false ->
  is_empty (strip (commit_msg (self w))) = false ->
  escapes (git_commit os) w (OSError (repo_path (self w))).
Proof.
  intros H Hm. unfold escapes. enter git_commit. rewrite Hm.
  cbn -[subprocess_run].
  rewrite (subprocess_run_missing_dir _ _ _ _ H). cbn. split; reflexivity.
Qed.

Lemma merge_escapes_on_missing_directory (w : World) :
  isdir os (repo_path (self w)) = false ->
  is_empty (strip (currentText (merge_source_combo (self w)))) = false ->
  is_empty (strip (currentText (merge_target_combo (self w)))) = false ->
  escapes (handle_merge_branches os) w (OSError (repo_path (self w))).
Proof.
  intros H Hs Ht. unfold escapes. enter handle_merge_branches.
  rewrite Hs, Ht. cbn -[subprocess_run].
  rewrite (subprocess_run_missing_dir _ _ _ _ H). cbn. split; reflexivity.
Qed.

(** Two handlers do report it: the terminal, through its
    [except OSError] clause, and the branch refresh, through its
    [except Exception] clause. *)
Lemma terminal_reports_missing_directory (w : World) :
  let dir := strip (repo_path (self w)) in
  is_empty dir = false ->
  startswith (strip (command_input (self w))) "git" = true ->
  isdir os dir = false ->
  reports (execute_command os) w (Prefixed "System error: " (OSError dir)).
Proof.
  intros dir Hp Hg H. unfold reports. enter execute_command.
  fold dir. rewrite Hp, Hg. cbn -[subprocess_run].
  rewrite (subprocess_run_missing_dir _ _ _ _ H). cbn. split; reflexivity.
Qed.

Lemma refresh_branches_reports_missing_directory (w : World) :
  let dir := repo_path (self w) in
  is_empty (strip dir) = false ->
  isdir os dir = false ->
  reports (refresh_branches os) w
    (Prefixed "Unexpected error while refreshing branches: " (OSError dir)).
Proof.
  intros dir Hp H. unfold reports. enter refresh_branches.
  fold dir. rewrite Hp. cbn -[subprocess_run].
  rewrite (subprocess_run_missing_dir _ _ _ _ H). cbn. split; reflexivity.
Qed.

(** ** The terminal *)

Lemma execute_command_rejects (w : World) :
  is_empty (strip (repo_path (self w))) = false ->
  startswith (strip (command_input (self w))) "git" = false ->
  execute_command os w
  = (Returned tt,
     mkWorld (self w)
       (dialogs w ++ [Text "Only git commands are allowed"]) (calls w)).
Proof.
  intros Hp Hg. enter execute_command. rewrite Hp, Hg. reflexivity.
Qed.

Lemma execute_command_launches (w : World) :
  is_empty (strip (repo_path (self w))) = false ->
  startswith (strip (command_input (self w))) "git" = true ->
  calls (snd (execute_command os w))
  = (calls w
     ++ [call_of (split_whitespace (strip (command_input (self w))))
           (strip (repo_path (self w)))])%list.
Proof.
  intros Hp Hg. enter execute_command. rewrite Hp, Hg.
  cbn -[subprocess_run]. next_call.
  - settle. reflexivity.
  - settle. reflexivity.
  - destruct e; try discriminate; reflexivity.
Qed.

(** C2. The terminal tests the typed line with [startswith("git")], not
    its first token: the line [gitk --all] passes the test, and a
    process is started whose executable is [gitk]. No "Only git
    commands are allowed" dialog is shown for it. *)
Theorem execute_command_accepts_git_prefix (w : World) :
  is_empty (strip (repo_path (self w))) = false ->
  strip (command_input (self w)) = "gitk --all" ->
  calls (snd (execute_command os w))
  = (calls w
     ++ [call_of ["gitk"; "--all"] (strip (repo_path (self w)))])%list
  /\ execute_command os w
     <> (Returned tt,
         mkWorld (self w)
           (dialogs w ++ [Text "Only git commands are allowed"])
           (calls w)).
Proof.
  intros Hp Hc.
  assert (Hcalls :
    calls (snd (execute_command os w))
    = (calls w
       ++ [call_of ["gitk"; "--all"] (strip (repo_path (self w)))])%list).
  { rewrite execute_command_launches; rewrite ?Hc; try reflexivity.
    exact Hp. }
  split; [exact Hcalls|].
  intros Heq. rewrite Heq in Hcalls. simpl in Hcalls.
  apply (f_equal (@List.length Call)) in Hcalls.
  rewrite length_app in Hcalls. simpl in Hcalls. lia.
Qed.

(** ** The merge *)

(** An exception raised by a checked call is either the
    [CalledProcessError] of that very command or not a
    [CalledProcessError] at all. *)
Lemma subprocess_run_raised (argv : list string) (dir : string)
      (w : World) (e : exn) :
  fst (subprocess_run os argv dir true w) = Raised e ->
  (exists status, status <> 0%Z /\ e = CalledProcessError status argv)
  \/ class_CalledProcessError e = false.
Proof.
  destruct (subprocess_run_cases argv dir w)
    as [(r & Hrun & _) | [(r & Hrun & Hrc) | (e' & Hrun & Hcls)]];
    rewrite Hrun; simpl; intros H.
  - discriminate H.
  - injection H as <-. left. now exists (returncode r).
  - injection H as <-. now right.
Qed.

(** C3. The merge runs [git checkout <target>] and then
    [git merge <source>]. If the checkout call raises, the merge call
    is not made, and what reaches the user is the error of the
    checkout: a dialog with the [CalledProcessError] of the checkout
    command, or the escaping exception of that call. If the checkout
    returns and the merge call raises, both calls were made and the
    error of the merge reaches the user the same way. In both cases
    neither the status label nor the output pane announces a merge. *)
Theorem merge_surfaces_failures
        (w : World) (source_branch target_branch : string) :
  strip (currentText (merge_source_combo (self w))) = source_branch ->
  strip (currentText (merge_target_combo (self w))) = target_branch ->
  source_branch <> "" ->
  target_branch <> "" ->
  let dir := repo_path (self w) in
  let checkout := ["git"; "checkout"; target_branch] in
  let merge := ["git"; "merge"; source_branch] in
  let after := snd (handle_merge_branches os w) in
  let untouched :=
    status_label (self after) = status_label (self w)
    /\ advanced_output (self after) = advanced_output (self w) in
  let surfaced (e : exn) (cmd : list string) :=
    (exists status,
        e = CalledProcessError status cmd
        /\ reports (handle_merge_branches os) w (StrOf e))
    \/ (class_CalledProcessError e = false
        /\ escapes (handle_merge_branches os) w e) in
  (forall e,
      fst (subprocess_run os checkout dir true w) = Raised e ->
      calls after = (calls w ++ [call_of checkout dir])%list
      /\ surfaced e checkout /\ untouched)
  /\ (forall r e,
        fst (subprocess_run os checkout dir true w) = Returned r ->
        fst (subprocess_run os merge dir true
               (snd (subprocess_run os checkout dir true w))) = Raised e ->
        calls after
        = (calls w ++ [call_of checkout dir; call_of merge dir])%list
        /\ surfaced e merge /\ untouched).
Proof.
  intros Hs Ht Hsne Htne dir checkout merge after untouched surfaced.
  assert (Hse : is_empty source_branch = false)
    by (destruct source_branch; [contradiction Hsne|]; reflexivity).
  assert (Hte : is_empty target_branch = false)
    by (destruct target_branch; [contradiction Htne|]; reflexivity).
  unfold surfaced, untouched, after, reports, escapes.
  split.
  - intros e He.
    destruct (subprocess_run_raised _ _ _ _ He) as [(st & _ & ->) | Hcls].
    + enter handle_merge_branches. rewrite Hs, Ht, Hse, Hte.
      cbn -[subprocess_run]. fold dir checkout.
      destruct (subprocess_run os checkout dir true w) as [o w1] eqn:Hrun.
      pose proof (subprocess_run_records checkout dir true w) as Hrec.
      rewrite Hrun in Hrec. simpl in Hrec, He. subst o w1.
      cbn. repeat split.
      left. exists st. repeat split.
    + enter handle_merge_branches. rewrite Hs, Ht, Hse, Hte.
      cbn -[subprocess_run]. fold dir checkout.
      destruct (subprocess_run os checkout dir true w) as [o w1] eqn:Hrun.
      pose proof (subprocess_run_records checkout dir true w) as Hrec.
      rewrite Hrun in Hrec. simpl in Hrec, He. subst o w1.
      destruct e; try discriminate Hcls; cbn; repeat split;
        right; repeat split.
  - intros r e Hr He.
    enter handle_merge_branches. rewrite Hs, Ht, Hse, Hte.
    cbn -[subprocess_run]. fold dir checkout merge.
    destruct (subprocess_run os checkout dir true w) as [o w1] eqn:Hrun.
    pose proof (subprocess_run_records checkout dir true w) as Hrec.
    rewrite Hrun in Hrec. simpl in Hrec, Hr, He. subst o w1.
    cbn -[subprocess_run]. fold dir merge.
    destruct (subprocess_run_raised _ _ _ _ He) as [(st & _ & ->) | Hcls].
    + destruct (subprocess_run os merge dir true _) as [o w2] eqn:Hrun2.
      pose proof (subprocess_run_records merge dir true
                    (mkWorld (self w) (dialogs w)
                       (calls w ++ [call_of checkout dir]))) as Hrec2.
      rewrite Hrun2 in Hrec2. simpl in Hrec2, He. subst o w2.
      cbn. rewrite <- app_assoc. repeat split.
      left. exists st. repeat split.
    + destruct (subprocess_run os merge dir true _) as [o w2] eqn:Hrun2.
      pose proof (subprocess_run_records merge dir true
                    (mkWorld (self w) (dialogs w)
                       (calls w ++ [call_of checkout dir]))) as Hrec2.
      rewrite Hrun2 in Hrec2. simpl in Hrec2, He. subst o w2.
      destruct e; try discriminate Hcls; cbn; rewrite <- app_assoc;
        repeat split; right; repeat split.
Qed.

(** ** The two list refreshes *)

Lemma items_add_items (texts : list string) (c : QComboBox) :
  items (add_items texts c) = (items c ++ texts)%list.
Proof.
  revert c. induction texts as [|t texts IH]; intros c; simpl.
  - now rewrite app_nil_r.
  - unfold add_items in *. simpl. rewrite IH. simpl.
    now rewrite <- app_assoc.
Qed.

Lemma subprocess_run_ok (argv : list string) (dir : string) (w : World)
      (r : CompletedProcess) :
  isdir os dir = true ->
  launch os (calls w) (call_of argv dir) = Exit r ->
  returncode r = 0%Z ->
  subprocess_run os argv dir true w
  = (Returned r,
     mkWorld (self w) (dialogs w) (calls w ++ [call_of argv dir])).
Proof.
  intros Hdir HL Hrc. unfold subprocess_run, call_of in *.
  rewrite Hdir. cbn. rewrite HL, Hrc. reflexivity.
Qed.

(** The loop that fills the remote combo box. *)
Lemma for_each_remote (names : list string) (w : World) :
  for_each names remote_list_addItem w
  = (Returned tt,
     mkWorld (set_remote_list (add_items names (remote_list (self w)))
                (self w))
       (dialogs w) (calls w)).
Proof.
  revert w. induction names as [|n names IH]; intros w.
  - destruct w as [g d c]. destruct g. reflexivity.
  - cbn [for_each]. unfold bind, remote_list_addItem at 1, update.
    rewrite IH. reflexivity.
Qed.

(** The loop of [refresh_remotes] that fills the push combo box. *)
Lemma for_each_push (lines : list string) (w : World) :
  for_each lines
    (fun br_line =>
       let br := strip (remove_char star br_line) in
       if is_empty br then ret tt else branch_for_push_addItem br) w
  = (Returned tt,
     mkWorld
       (set_branch_for_push
          (add_items
             (filter (fun b => negb (is_empty b))
                (map (fun line => strip (remove_char star line)) lines))
             (branch_for_push (self w)))
          (self w))
       (dialogs w) (calls w)).
Proof.
  revert w. induction lines as [|l lines IH]; intros w.
  - destruct w as [g d c]. destruct g. reflexivity.
  - cbn [for_each]. unfold bind. cbn [map filter].
    destruct (is_empty (strip (remove_char star l))) eqn:E; cbn.
    + unfold ret. rewrite IH. reflexivity.
    + unfold branch_for_push_addItem at 1, update. rewrite IH. reflexivity.
Qed.

(** The loop of [refresh_branches] that fills the five branch combo
    boxes. *)
Lemma for_each_branch (branches : list string) (w : World) :
  for_each branches
    (fun branch =>
       merge_source_combo_addItem branch ;;
       merge_target_combo_addItem branch ;;
       delete_branch_combo_addItem branch ;;
       rename_branch_combo_addItem branch ;;
       branch_for_push_addItem branch) w
  = (Returned tt,
     mkWorld
       (set_merge_source_combo
          (add_items branches (merge_source_combo (self w)))
          (set_merge_target_combo
             (add_items branches (merge_target_combo (self w)))
             (set_delete_branch_combo
                (add_items branches (delete_branch_combo (self w)))
                (set_rename_branch_combo
                   (add_items branches (rename_branch_combo (self w)))
                   (set_branch_for_push
                      (add_items branches (branch_for_push (self w)))
                      (self w))))))
       (dialogs w) (calls w)).
Proof.
  revert w. induction branches as [|b branches IH]; intros w.
  - destruct w as [g d c]. destruct g. reflexivity.
  - cbn [for_each]. unfold bind at 1.
    unfold bind, merge_source_combo_addItem at 1,
      merge_target_combo_addItem at 1, delete_branch_combo_addItem at 1,
      rename_branch_combo_addItem at 1, branch_for_push_addItem at 1,
      update.
    rewrite IH. reflexivity.
Qed.

(** What [refresh_remotes] puts in the remote combo box, whatever
    happens to its second call. *)
Lemma refresh_remotes_remote_list (w : World) (r : CompletedProcess) :
  isdir os (repo_path (self w)) = true ->
  launch os (calls w) (call_of ["git"; "remote"] (repo_path (self w)))
  = Exit r ->
  returncode r = 0%Z ->
  items (remote_list (self (snd (refresh_remotes os w))))
  = split_whitespace (stdout r).
Proof.
  intros Hdir HL Hrc. enter refresh_remotes.
  rewrite (subprocess_run_ok _ _ _ _ Hdir HL Hrc).
  unfold remote_list_clear, update, bind. cbn -[subprocess_run for_each].
  rewrite for_each_remote. cbn -[subprocess_run for_each].
  next_call.
  - unfold branch_for_push_clear, update, bind.
    cbn -[subprocess_run for_each]. rewrite for_each_push. cbn.
    apply items_add_items.
  - cbn. apply items_add_items.
  - destruct e; try discriminate; cbn; apply items_add_items.
Qed.

(** C7. After [refresh_remotes], when [git remote] printed [raw] and
    exited with status 0, the remote combo box holds [raw.split()];
    that list is the list of the whitespace-separated tokens of [raw]
    in order, and no other list is. *)
Theorem remote_list_parsing (w : World) (r : CompletedProcess) :
  let dir := repo_path (self w) in
  isdir os dir = true ->
  launch os (calls w) (call_of ["git"; "remote"] dir) = Exit r ->
  returncode r = 0%Z ->
  let listed := items (remote_list (self (snd (refresh_remotes os w)))) in
  listed = split_whitespace (stdout r)
  /\ Spec.tokens (stdout r) listed
  /\ (forall ts, Spec.tokens (stdout r) ts -> ts = listed).
Proof.
  intros dir Hdir HL Hrc listed.
  assert (H : listed = split_whitespace (stdout r))
    by (apply refresh_remotes_remote_list; assumption).
  rewrite H. repeat split.
  - apply tokens_split_whitespace.
  - intros ts Hts. symmetry. now apply tokens_unique.
Qed.

Lemma refresh_branches_combos (w : World) (r : CompletedProcess) :
  is_empty (strip (repo_path (self w))) = false ->
  isdir os (repo_path (self w)) = true ->
  launch os (calls w)
    (call_of ["git"; "branch"; "--list"] (repo_path (self w))) = Exit r ->
  returncode r = 0%Z ->
  let g := self (snd (refresh_branches os w)) in
  items (merge_source_combo g) = branch_names (stdout r)
  /\ items (merge_target_combo g) = branch_names (stdout r)
  /\ items (delete_branch_combo g) = branch_names (stdout r)
  /\ items (rename_branch_combo g) = branch_names (stdout r)
  /\ items (branch_for_push g) = branch_names (stdout r).
Proof.
  intros Hp Hdir HL Hrc. enter refresh_branches. rewrite Hp.
  cbn -[subprocess_run for_each].
  rewrite (subprocess_run_ok _ _ _ _ Hdir HL Hrc).
  unfold merge_source_combo_clear, merge_target_combo_clear,
    delete_branch_combo_clear, rename_branch_combo_clear,
    branch_for_push_clear, update, bind.
  cbn -[for_each]. rewrite for_each_branch. cbn.
  repeat split; apply items_add_items.
Qed.

Lemma refresh_remotes_branch_for_push (w : World)
      (r0 r : CompletedProcess) :
  isdir os (repo_path (self w)) = true ->
  launch os (calls w) (call_of ["git"; "remote"] (repo_path (self w)))
  = Exit r0 ->
  returncode r0 = 0%Z ->
  launch os (calls w ++ [call_of ["git"; "remote"] (repo_path (self w))])
    (call_of ["git"; "branch"; "--list"] (repo_path (self w))) = Exit r ->
  returncode r = 0%Z ->
  items (branch_for_push (self (snd (refresh_remotes os w))))
  = branch_names (stdout r).
Proof.
  intros Hdir HL0 Hrc0 HL Hrc. enter refresh_remotes.
  rewrite (subprocess_run_ok _ _ _ _ Hdir HL0 Hrc0).
  unfold remote_list_clear, update, bind. cbn -[subprocess_run for_each].
  rewrite for_each_remote. cbn -[subprocess_run for_each].
  match goal with
  | |- context [subprocess_run os ?argv ?d true ?w0] =>
      rewrite (subprocess_run_ok argv d w0 r Hdir HL Hrc)
  end.
  unfold branch_for_push_clear, update, bind.
  cbn -[subprocess_run for_each]. rewrite for_each_push. cbn.
  rewrite items_add_items. cbn. now rewrite branch_names_filter.
Qed.

(** Where an asterisk occurs in [raw] only as the marker that opens a
    line, the combo boxes hold the lines of [raw] with the leading
    marker and the surrounding whitespace stripped, the empty ones left
    out. *)
Lemma branch_list_on_marker_only_text (w : World) (r : CompletedProcess) :
  let dir := repo_path (self w) in
  let list_call := call_of ["git"; "branch"; "--list"] dir in
  let remote_call := call_of ["git"; "remote"] dir in
  Spec.listing (stdout r) = true ->
  isdir os dir = true ->
  returncode r = 0%Z ->
  (is_empty (strip dir) = false ->
   launch os (calls w) list_call = Exit r ->
   let g := self (snd (refresh_branches os w)) in
   items (merge_source_combo g) = Spec.branch_list (stdout r)
   /\ items (merge_target_combo g) = Spec.branch_list (stdout r)
   /\ items (delete_branch_combo g) = Spec.branch_list (stdout r)
   /\ items (rename_branch_combo g) = Spec.branch_list (stdout r)
   /\ items (branch_for_push g) = Spec.branch_list (stdout r))
  /\ (forall r0,
        launch os (calls w) remote_call = Exit r0 ->
        returncode r0 = 0%Z ->
        launch os (calls w ++ [remote_call]) list_call = Exit r ->
        items (branch_for_push (self (snd (refresh_remotes os w))))
        = Spec.branch_list (stdout r)).
Proof.
  intros dir list_call remote_call Hlisting Hdir Hrc.
  rewrite <- (branch_names_refines _ Hlisting). split.
  - intros Hp HL. now apply refresh_branches_combos.
  - intros r0 HL0 Hrc0 HL. now apply (refresh_remotes_branch_for_push w r0).
Qed.

Lemma remove_char_is_filter (line : string) :
  remove_char star line = every_asterisk_removed line.
Proof.
  unfold every_asterisk_removed.
  induction line as [|c line IH]; [reflexivity|].
  cbn [remove_char list_ascii_of_string filter].
  destruct (Ascii.eqb c star); cbn [negb]; [exact IH|].
  cbn [string_of_list_ascii]. now rewrite IH.
Qed.

Lemma branch_names_without_asterisks (raw : string) :
  branch_names raw = branch_list_without_asterisks raw.
Proof.
  rewrite branch_names_filter. unfold branch_list_without_asterisks.
  f_equal. apply map_ext. intros line. now rewrite remove_char_is_filter.
Qed.

(** C6, amended. After [refresh_branches], when [git branch --list]
    printed [raw] and exited with status 0, each of the five branch
    combo boxes holds, in order, the lines of [raw] with every asterisk
    removed, wherever it stands in the line, and the surrounding
    whitespace stripped, the lines left empty being dropped; after
    [refresh_remotes] the push combo box holds the same list. This
    holds for every text [raw]. *)
Theorem branch_list_parsing_removes_asterisks
        (w : World) (r : CompletedProcess) :
  let dir := repo_path (self w) in
  let list_call := call_of ["git"; "branch"; "--list"] dir in
  let remote_call := call_of ["git"; "remote"] dir in
  isdir os dir = true ->
  returncode r = 0%Z ->
  (is_empty (strip dir) = false ->
   launch os (calls w) list_call = Exit r ->
   let g := self (snd (refresh_branches os w)) in
   items (merge_source_combo g) = branch_list_without_asterisks (stdout r)
   /\ items (merge_target_combo g) = branch_list_without_asterisks (stdout r)
   /\ items (delete_branch_combo g) = branch_list_without_asterisks (stdout r)
   /\ items (rename_branch_combo g) = branch_list_without_asterisks (stdout r)
   /\ items (branch_for_push g) = branch_list_without_asterisks (stdout r))
  /\ (forall r0,
        launch os (calls w) remote_call = Exit r0 ->
        returncode r0 = 0%Z ->
        launch os (calls w ++ [remote_call]) list_call = Exit r ->
        items (branch_for_push (self (snd (refresh_remotes os w))))
        = branch_list_without_asterisks (stdout r)).
Proof.
  intros dir list_call remote_call Hdir Hrc.
  rewrite <- branch_names_without_asterisks. split.
  - intros Hp HL. now apply refresh_branches_combos.
  - intros r0 HL0 Hrc0 HL. now apply (refresh_remotes_branch_for_push w r0).
Qed.

End HandlerFacts.

(** * Concrete runs *)

Section Runs.

Import Sample.

Example split_lines_example :
  split LF_char branch_output = ["* main"; "  develop"; "  feature/x"; ""].
Proof. reflexivity. Qed.

Example branch_names_example :
  branch_names branch_output = ["main"; "develop"; "feature/x"].
Proof. reflexivity. Qed.

Example split_whitespace_example :
  split_whitespace remote_output = ["origin"; "upstream"].
Proof. reflexivity. Qed.

(** Outside a listing the two readings part: an asterisk inside a name
    is dropped by the handler and kept by [Spec.branch_of_line]. *)
Example asterisk_inside_a_name :
  branch_names "feat*x" = ["featx"]
  /\ Spec.branch_list "feat*x" = ["feat*x"]
  /\ Spec.listing "feat*x" = false.
Proof. repeat split. Qed.

Example terminal_prefix_test :
  startswith "gitk --all" "git" = true
  /\ startswith "git status" "git" = true
  /\ startswith "ls" "git" = false.
Proof. repeat split. Qed.

End Runs.

Lemma missing_directory_escapes_witness :
  escapes (git_init Sample.os_no_dir) (Sample.world Sample.gui)
    (OSError "/repo")
  /\ calls (snd (git_init Sample.os_no_dir (Sample.world Sample.gui)))
     = [call_of ["git"; "init"] "/repo"].
Proof.
  split.
  - apply (missing_directory_escapes Sample.os_no_dir
             (Sample.world Sample.gui)).
    reflexivity.
  - reflexivity.
Defined.

Lemma execute_command_accepts_git_prefix_witness :
  calls (snd (execute_command (Sample.os_ok "")
                (Sample.world (set_command_input "gitk --all" Sample.gui))))
  = [call_of ["gitk"; "--all"] "/repo"].
Proof.
  apply (execute_command_accepts_git_prefix (Sample.os_ok "")
           (Sample.world (set_command_input "gitk --all" Sample.gui)));
    reflexivity.
Defined.

Lemma merge_surfaces_failures_witness :
  calls (snd (handle_merge_branches (Sample.os_failing "checkout" 1)
                (Sample.world Sample.merge_gui)))
  = [call_of ["git"; "checkout"; "main"] "/repo"]
  /\ dialogs (snd (handle_merge_branches (Sample.os_failing "checkout" 1)
                     (Sample.world Sample.merge_gui)))
     = [StrOf (CalledProcessError 1 ["git"; "checkout"; "main"])].
Proof.
  destruct (merge_surfaces_failures (Sample.os_failing "checkout" 1)
              (Sample.world Sample.merge_gui) "feature" "main"
              eq_refl eq_refl
              ltac:(discriminate) ltac:(discriminate)) as [Hcheckout _].
  destruct (Hcheckout (CalledProcessError 1 ["git"; "checkout"; "main"])
              eq_refl) as (Hcalls & Hsurfaced & _).
  split; [exact Hcalls|].
  destruct Hsurfaced as [(status & _ & _ & Hdialogs) | (Hcls & _)].
  - exact Hdialogs.
  - discriminate Hcls.
Defined.

Lemma change_branch_failure_is_not_retried_witness :
  reports (change_branch (Sample.os_failing "checkout" 128) "main")
    (Sample.world Sample.gui)
    (StrOf (CalledProcessError 128 ["git"; "checkout"; "-b"; "main"]))
  /\ calls (snd (change_branch (Sample.os_failing "checkout" 128) "main"
                   (Sample.world Sample.gui)))
     = [call_of ["git"; "checkout"; "-b"; "main"] "/repo"].
Proof.
  destruct (change_branch_failure_is_not_retried
              (Sample.os_failing "checkout" 128) "main"
              (Sample.world Sample.gui) (mkCompleted 128 "" "fatal")
              eq_refl eq_refl ltac:(discriminate)) as (Hreports & Hcalls & _).
  split; [exact Hreports | exact Hcalls].
Defined.

Lemma branch_list_parsing_removes_asterisks_witness :
  items (merge_source_combo
           (self (snd (refresh_branches (Sample.os_ok Sample.branch_output)
                         (Sample.world Sample.gui)))))
  = ["main"; "develop"; "feature/x"]
  /\ items (branch_for_push
              (self (snd (refresh_remotes (Sample.os_ok Sample.branch_output)
                            (Sample.world Sample.gui)))))
     = ["main"; "develop"; "feature/x"].
Proof.
  destruct (branch_list_parsing_removes_asterisks
              (Sample.os_ok Sample.branch_output)
              (Sample.world Sample.gui)
              (mkCompleted 0 Sample.branch_output "")
              eq_refl eq_refl) as [Hbranches Hremotes].
  split.
  - exact (proj1 (Hbranches eq_refl eq_refl)).
  - exact (Hremotes (mkCompleted 0 Sample.branch_output "")
             eq_refl eq_refl eq_refl).
Defined.

(** The claim as first stated, with the leading marker only, fails on
    the column layout: the handler stores [develop     feature/x  main],
    the asterisk gone from the middle of the line, where stripping a
    leading marker leaves the line as it is. *)
Lemma branch_list_parsing_counterexample :
  ~ (forall (os : OS) (w : World) (r : CompletedProcess),
        is_empty (strip (repo_path (self w))) = false ->
        isdir os (repo_path (self w)) = true ->
        launch os (calls w)
          (call_of ["git"; "branch"; "--list"] (repo_path (self w)))
        = Exit r ->
        returncode r = 0%Z ->
        items (merge_source_combo (self (snd (refresh_branches os w))))
        = Spec.branch_list (stdout r)).
Proof.
  intros H.
  specialize (H (Sample.os_ok column_output) (Sample.world Sample.gui)
                (mkCompleted 0 column_output "")
                eq_refl eq_refl eq_refl eq_refl).
  vm_compute in H. discriminate H.
Qed.

Example column_layout_run :
  items (merge_source_combo
           (self (snd (refresh_branches (Sample.os_ok column_output)
                         (Sample.world Sample.gui)))))
  = ["develop     feature/x  main"]
  /\ Spec.branch_list column_output = ["develop     feature/x * main"].
Proof. split; reflexivity. Qed.

Lemma remote_list_parsing_witness :
  items (remote_list
           (self (snd (refresh_remotes (Sample.os_ok Sample.remote_output)
                         (Sample.world Sample.gui)))))
  = ["origin"; "upstream"].
Proof.
  exact (proj1 (remote_list_parsing (Sample.os_ok Sample.remote_output)
                  (Sample.world Sample.gui)
                  (mkCompleted 0 Sample.remote_output "")
                  eq_refl eq_refl eq_refl)).
Defined.

Lemma commit_empty_message_rejected_witness :
  git_commit (Sample.os_ok "")
    (Sample.world (set_commit_msg "   " Sample.gui))
  = (Returned tt,
     mkWorld (set_commit_msg "   " Sample.gui)
       [Text "Please enter a commit message"] []).
Proof.
  apply (commit_empty_message_rejected (Sample.os_ok "")
           (Sample.world (set_commit_msg "   " Sample.gui))).
  reflexivity.
Defined.

Lemma push_argument_vector_witness :
  calls (snd (git_push_advanced (Sample.os_ok "")
                (Sample.world
                   (set_force_push true
                      (set_branch_for_push (mkCombo ["main"; "dev"] (Some 1) "")
                         Sample.gui)))))
  = [call_of ["git"; "push"; "origin"; "--force"; "dev"] "/repo"].
Proof.
  exact (proj1 (push_argument_vector (Sample.os_ok "")
                  (Sample.world
                     (set_force_push true
                        (set_branch_for_push
                           (mkCombo ["main"; "dev"] (Some 1) "") Sample.gui)))
                  "dev" eq_refl ltac:(discriminate))).
Defined.

Lemma free_text_is_one_argument_witness :
  calls (snd (git_commit (Sample.os_ok "")
                (Sample.world (set_commit_msg "; rm -rf /" Sample.gui))))
  = [mkCall ["git"; "commit"; "-m"; "; rm -rf /"] "/repo" false].
Proof.
  exact (proj1 (free_text_is_one_argument (Sample.os_ok "")
                  (Sample.world (set_commit_msg "; rm -rf /" Sample.gui)))
           "; rm -rf /" eq_refl ltac:(discriminate)).
Defined.


(** * The colour arithmetic of [MaterialButton] *)

Module ColorFacts.

Import MaterialButton.

(** Checking a property of a character or of a byte value on all of
    them. *)
Definition all_ascii : list ascii := map ascii_of_nat (seq 0 256).

Lemma in_all_ascii (c : ascii) : In c all_ascii.
Proof.
  unfold all_ascii. rewrite <- (ascii_nat_embedding c).
  apply in_map. apply in_seq. pose proof (nat_ascii_bounded c). lia.
Qed.

Lemma for_all_ascii (P : ascii -> bool) :
  forallb P all_ascii = true -> forall c, P c = true.
Proof.
  intros H c. rewrite forallb_forall in H. apply H, in_all_ascii.
Qed.

Lemma for_all_bytes (P : Z -> bool) :
  forallb (fun k => P (Z.of_nat k)) (seq 0 256) = true ->
  forall n, (0 <= n <= 255)%Z -> P n = true.
Proof.
  intros H n Hn. rewrite forallb_forall in H.
  rewrite <- (Z2Nat.id n) by lia. apply H. apply in_seq. lia.
Qed.

(** Formatting a byte gives two lower-case digits that read back as the
    byte. *)
Lemma format_02x_reads_back (n : Z) :
  (0 <= n <= 255)%Z ->
  all_hex (format_02x n) = true /\ hex_value (format_02x n) = n.
Proof.
  intros Hn.
  assert (H : (all_hex (format_02x n) && (hex_value (format_02x n) =? n)%Z)
              = true).
  { revert n Hn.
    apply (for_all_bytes
             (fun n => all_hex (format_02x n)
                       && (hex_value (format_02x n) =? n)%Z)).
    vm_compute. reflexivity. }
  apply andb_prop in H as [H1 H2]. split; [exact H1 | now apply Z.eqb_eq].
Qed.

Lemma format_02x_lower (n : Z) :
  (0 <= n <= 255)%Z ->
  is_lower_hex (hex_char (n / 16)) = true
  /\ is_lower_hex (hex_char (n mod 16)) = true.
Proof.
  intros Hn.
  assert (H : (is_lower_hex (hex_char (n / 16))
               && is_lower_hex (hex_char (n mod 16))) = true).
  { revert n Hn.
    apply (for_all_bytes
             (fun n => is_lower_hex (hex_char (n / 16))
                       && is_lower_hex (hex_char (n mod 16)))).
    vm_compute. reflexivity. }
  now apply andb_prop in H.
Qed.

(** A hexadecimal digit has a value below 16, whose lower-case digit is
    the digit in lower case. *)
Lemma one_digit (c : ascii) :
  is_hex c = true ->
  exists d, hex_digit c = Some d /\ (0 <= d <= 15)%Z
            /\ hex_char d = lower c.
Proof.
  intros Hc.
  pose proof (for_all_ascii
                (fun c => match hex_digit c with
                          | Some d => (0 <=? d)%Z && (d <=? 15)%Z
                                      && Ascii.eqb (hex_char d) (lower c)
                          | None => true
                          end)
                ltac:(vm_compute; reflexivity) c) as H.
  cbv beta in H. unfold is_hex in Hc.
  destruct (hex_digit c) as [d|]; [|discriminate Hc].
  apply andb_prop in H as [H Heq]. apply andb_prop in H as [Hlo Hhi].
  apply Z.leb_le in Hlo, Hhi. apply Ascii.eqb_eq in Heq.
  exists d. repeat split; assumption.
Qed.

(** Two hexadecimal digits write a byte, and formatting that byte gives
    the digits back in lower case. *)
Lemma two_digits (a b : ascii) :
  is_hex a = true -> is_hex b = true ->
  (0 <= hex_value (String a (String b "")) <= 255)%Z
  /\ format_02x (hex_value (String a (String b "")))
     = String (lower a) (String (lower b) "").
Proof.
  intros Ha Hb.
  destruct (one_digit a Ha) as (da & Hda & Hra & Hla).
  destruct (one_digit b Hb) as (db & Hdb & Hrb & Hlb).
  unfold hex_value. cbn [hex_value_from]. rewrite Hda, Hdb.
  replace (16 * (16 * 0 + da) + db)%Z with (db + da * 16)%Z by lia.
  split; [lia|].
  unfold format_02x.
  rewrite Z.div_add by lia. rewrite Z.mod_add by lia.
  rewrite Z.div_small, Z.mod_small by lia.
  cbn [Z.add]. now rewrite Hla, Hlb.
Qed.

Lemma lower_hex_not_hash (c : ascii) :
  is_lower_hex c = true -> Ascii.eqb c "#" = false.
Proof.
  intros Hc.
  pose proof (for_all_ascii
                (fun c => implb (is_lower_hex c) (negb (Ascii.eqb c "#")))
                eq_refl c) as H.
  cbv beta in H. rewrite Hc in H. cbn [implb] in H.
  now apply negb_true_iff in H.
Qed.

Lemma int16_digits_reads_hex : reads_hex int16_digits.
Proof.
  intros s Hne Hhex. unfold int16_digits. rewrite Hhex.
  destruct s; [contradiction Hne; reflexivity | reflexivity].
Qed.

Lemma substring_nothing (s : string) : substring 0 0 s = "".
Proof. destruct s; reflexivity. Qed.

Lemma lstrip_hash_format (u : Z) (s : string) :
  (0 <= u <= 255)%Z ->
  lstrip_char "#" ("#" ++ format_02x u ++ s) = format_02x u ++ s.
Proof.
  intros Hu. destruct (format_02x_lower u Hu) as [H _].
  unfold format_02x. cbn [append lstrip_char].
  rewrite Ascii.eqb_refl. cbn [lstrip_char].
  now rewrite (lower_hex_not_hash _ H).
Qed.

Lemma clamp_range (c : Z) : (0 <= Z.max 0 (Z.min 255 c) <= 255)%Z.
Proof. lia. Qed.

Section AdjustColorFacts.

Variable int16 : string -> option Z.

(** X1. Whenever [adjust_color] returns, it returns [#] followed by
    exactly six lower-case hexadecimal digits, whatever the input string
    and the amount were. *)
Theorem adjust_color_is_color (color_str : string) (amount : Z)
        (out : string) :
  adjust_color int16 color_str amount = Some out -> is_color out = true.
Proof.
  unfold adjust_color.
  destruct (channel int16 _ 0) as [r|]; [|discriminate].
  destruct (channel int16 _ 2) as [g|]; [|discriminate].
  destruct (channel int16 _ 4) as [b|]; [|discriminate].
  intros H. injection H as <-.
  destruct (format_02x_lower _ (clamp_range (r + amount))) as [R1 R2].
  destruct (format_02x_lower _ (clamp_range (g + amount))) as [G1 G2].
  destruct (format_02x_lower _ (clamp_range (b + amount))) as [B1 B2].
  unfold format_02x. cbn [append is_color].
  rewrite R1, R2, G1, G2, B1, B2. reflexivity.
Qed.

(** X5. A colour with fewer than five characters after its leading [#]
    signs (such as the short form [#fff]) makes [adjust_color] raise
    [ValueError]: the third slice is empty. *)
Theorem adjust_color_short (color_str : string) (amount : Z) :
  rejects_empty int16 ->
  (String.length (lstrip_char "#" color_str) <= 4)%nat ->
  adjust_color int16 color_str amount = None.
Proof.
  intros Hempty Hlen. unfold adjust_color, channel.
  assert (Hthird : substring 4 2 (lstrip_char "#" color_str) = "").
  { destruct (lstrip_char "#" color_str) as [|c1 [|c2 [|c3 [|c4 [|c5 t]]]]];
      try reflexivity.
    simpl in Hlen. lia. }
  rewrite Hthird, Hempty.
  destruct (int16 (substring 0 2 _)); [|reflexivity].
  destruct (int16 (substring 2 2 _)); reflexivity.
Qed.

Hypothesis int16_hex : reads_hex int16.

Variables a b c d e f : ascii.
Variable rest : string.
Hypothesis hex_a : is_hex a = true.
Hypothesis hex_b : is_hex b = true.
Hypothesis hex_c : is_hex c = true.
Hypothesis hex_d : is_hex d = true.
Hypothesis hex_e : is_hex e = true.
Hypothesis hex_f : is_hex f = true.

Let digits : string :=
  String a (String b (String c (String d (String e (String f rest))))).

(** What [adjust_color] computes on a colour with six digits. *)
Lemma adjust_color_six (color_str : string) (amount : Z) :
  lstrip_char "#" color_str = digits ->
  adjust_color int16 color_str amount
  = Some ("#"
          ++ format_02x
               (Z.max 0 (Z.min 255 (hex_value (String a (String b ""))
                                    + amount)))
          ++ format_02x
               (Z.max 0 (Z.min 255 (hex_value (String c (String d ""))
                                    + amount)))
          ++ format_02x
               (Z.max 0 (Z.min 255 (hex_value (String e (String f ""))
                                    + amount)))).
Proof.
  intros Hclr. unfold adjust_color, channel. rewrite Hclr. unfold digits.
  cbn [substring]. rewrite !substring_nothing.
  rewrite !int16_hex; try discriminate; try reflexivity;
    cbn [all_hex]; rewrite ?hex_a, ?hex_b, ?hex_c, ?hex_d, ?hex_e, ?hex_f;
    reflexivity.
Qed.

(** X2. On a colour with six hexadecimal digits [adjust_color] does not
    raise, and each channel of the colour it returns is the channel of
    the input plus the amount, cut to the range 0..255. Characters after
    the sixth digit are ignored. *)
Theorem adjust_color_channels (color_str : string) (amount : Z) :
  lstrip_char "#" color_str = digits ->
  exists a' b' c' d' e' f',
    adjust_color int16 color_str amount
    = Some (String "#" (String a' (String b' (String c' (String d'
              (String e' (String f' "")))))))
    /\ channels a' b' c' d' e' f'
       = (let '(r, g, bl) := channels a b c d e f in
          (Z.max 0 (Z.min 255 (r + amount)),
           Z.max 0 (Z.min 255 (g + amount)),
           Z.max 0 (Z.min 255 (bl + amount)))).
Proof.
  intros Hclr. rewrite (adjust_color_six _ amount Hclr).
  unfold channels.
  set (r := Z.max 0 (Z.min 255 (hex_value (String a (String b "")) + amount))).
  set (g := Z.max 0 (Z.min 255 (hex_value (String c (String d "")) + amount))).
  set (bl := Z.max 0 (Z.min 255 (hex_value (String e (String f "")) + amount))).
  destruct (format_02x_reads_back r (clamp_range _)) as [_ Hr].
  destruct (format_02x_reads_back g (clamp_range _)) as [_ Hg].
  destruct (format_02x_reads_back bl (clamp_range _)) as [_ Hb].
  unfold format_02x in *. do 6 eexists. split; [reflexivity|].
  now rewrite Hr, Hg, Hb.
Qed.

(** X3. With amount 0 a colour with six hexadecimal digits comes back
    unchanged but for the case of its digits: one leading [#] and the
    six digits in lower case. *)
Theorem adjust_color_zero (color_str : string) :
  lstrip_char "#" color_str = digits ->
  adjust_color int16 color_str 0
  = Some (String "#" (String (lower a) (String (lower b) (String (lower c)
            (String (lower d) (String (lower e) (String (lower f) ""))))))).
Proof.
  intros Hclr. rewrite (adjust_color_six _ 0 Hclr).
  destruct (two_digits a b hex_a hex_b) as [Rab Fab].
  destruct (two_digits c d hex_c hex_d) as [Rcd Fcd].
  destruct (two_digits e f hex_e hex_f) as [Ref Fef].
  rewrite !Z.add_0_r.
  rewrite !Z.min_r by lia. rewrite !Z.max_r by lia.
  rewrite Fab, Fcd, Fef. reflexivity.
Qed.

(** X4. Two adjustments in the same direction add up: adjusting by [p]
    and then adjusting the result by [q] gives the colour adjusted by
    [p + q], when [p] and [q] are both at most 0 or both at least 0. So
    the pressed colour of a button (-40) is its hover colour (-20)
    darkened by another 20. *)
Theorem adjust_color_adds_up (color_str : string) (p q : Z) :
  lstrip_char "#" color_str = digits ->
  (p <= 0 /\ q <= 0)%Z \/ (0 <= p /\ 0 <= q)%Z ->
  match adjust_color int16 color_str p with
  | Some mid => adjust_color int16 mid q
  | None => None
  end
  = adjust_color int16 color_str (p + q).
Proof.
  intros Hclr Hsign.
  rewrite (adjust_color_six _ p Hclr), (adjust_color_six _ (p + q) Hclr).
  destruct (two_digits a b hex_a hex_b) as [Rab _].
  destruct (two_digits c d hex_c hex_d) as [Rcd _].
  destruct (two_digits e f hex_e hex_f) as [Ref _].
  set (x := hex_value (String a (String b ""))) in *.
  set (y := hex_value (String c (String d ""))) in *.
  set (z := hex_value (String e (String f ""))) in *.
  destruct (format_02x_reads_back _ (clamp_range (x + p))) as [Hx1 Hx2].
  destruct (format_02x_reads_back _ (clamp_range (y + p))) as [Hy1 Hy2].
  destruct (format_02x_reads_back _ (clamp_range (z + p))) as [Hz1 Hz2].
  unfold adjust_color at 1, channel.
  rewrite lstrip_hash_format by apply clamp_range.
  assert (H0 : forall u v w : Z,
    substring 0 2 (format_02x u ++ format_02x v ++ format_02x w)
    = format_02x u) by reflexivity.
  assert (H2 : forall u v w : Z,
    substring 2 2 (format_02x u ++ format_02x v ++ format_02x w)
    = format_02x v) by reflexivity.
  assert (H4 : forall u v w : Z,
    substring 4 2 (format_02x u ++ format_02x v ++ format_02x w)
    = format_02x w) by reflexivity.
  rewrite H0, H2, H4.
  rewrite !int16_hex by (assumption || discriminate).
  rewrite Hx2, Hy2, Hz2.
  assert (Hadd : forall v : Z, (0 <= v <= 255)%Z ->
            Z.max 0 (Z.min 255 (Z.max 0 (Z.min 255 (v + p)) + q))
            = Z.max 0 (Z.min 255 (v + (p + q)))) by (intros v Hv; lia).
  now rewrite !Hadd by assumption.
Qed.

End AdjustColorFacts.

End ColorFacts.

(** * More about the two parsers *)

Lemma tokens_are_tokens (raw : string) (ts : list string) :
  Spec.tokens raw ts -> Forall (fun t => Spec.token t = true) ts.
Proof.
  induction 1 as [s Hs | pre t rest ts Hpre Ht Hgap _ IH]; constructor;
    assumption.
Qed.

Lemma split_whitespace_tokens (raw : string) :
  Forall (fun t => Spec.token t = true) (split_whitespace raw).
Proof. apply (tokens_are_tokens raw). apply tokens_split_whitespace. Qed.

Lemma no_star_remove_char (s : string) :
  Spec.no_star (remove_char star s) = true.
Proof.
  induction s as [|c s IH]; simpl; [reflexivity|].
  destruct (Ascii.eqb c star) eqn:E; [exact IH|].
  simpl. now rewrite E, IH.
Qed.

Lemma no_star_lstrip (s : string) :
  Spec.no_star s = true -> Spec.no_star (lstrip s) = true.
Proof.
  induction s as [|c s IH]; simpl; intros H; [reflexivity|].
  destruct (isspace c); [|exact H].
  apply andb_prop in H as [_ H]. now apply IH.
Qed.

Lemma no_star_rstrip (s : string) :
  Spec.no_star s = true -> Spec.no_star (rstrip s) = true.
Proof.
  induction s as [|c s IH]; simpl; intros H; [reflexivity|].
  apply andb_prop in H as [Hc H].
  destruct (isspace c && is_empty (rstrip s)); [reflexivity|].
  simpl. now rewrite Hc, IH.
Qed.

Lemma clean_branch_of_line (line : string) :
  is_empty (strip (remove_char star line)) = false ->
  clean_name (strip (remove_char star line)) = true.
Proof.
  intros H. unfold clean_name. rewrite H, strip_idempotent, String.eqb_refl.
  simpl. unfold strip. apply no_star_rstrip, no_star_lstrip.
  apply no_star_remove_char.
Qed.

Lemma branch_names_clean (out : string) :
  Forall (fun b => clean_name b = true) (branch_names out).
Proof.
  rewrite branch_names_filter. apply Forall_forall. intros b Hb.
  apply filter_In in Hb as [Hin Hne]. apply in_map_iff in Hin as (l & <- & _).
  apply clean_branch_of_line. now apply negb_true_iff.
Qed.

Lemma split_not_nil (sep : ascii) (s : string) : split sep s <> [].
Proof.
  destruct s as [|c s]; simpl; [discriminate|].
  destruct (Ascii.eqb c sep); [discriminate|].
  destruct (split sep s); discriminate.
Qed.

Lemma split_app (sep : ascii) (a b : string) :
  split sep (a ++ String sep b) = (split sep a ++ split sep b)%list.
Proof.
  induction a as [|c a IH]; simpl.
  - now rewrite Ascii.eqb_refl.
  - destruct (Ascii.eqb c sep); rewrite IH; [reflexivity|].
    destruct (split sep a) eqn:E; [|reflexivity].
    exfalso. exact (split_not_nil sep a E).
Qed.

(** X17. The branch parser works line by line: the names parsed from two
    outputs joined by a line feed are the names of the first followed by
    the names of the second. In particular a blank line or a trailing
    line feed adds nothing. *)
Theorem branch_names_of_joined_outputs (first second : string) :
  branch_names (first ++ LF ++ second)
  = (branch_names first ++ branch_names second)%list.
Proof.
  rewrite !branch_names_filter. unfold LF. cbn [append].
  now rewrite split_app, map_app, filter_app.
Qed.

(** [startswith] against concatenation. *)
Lemma prefix_append (p x : string) : String.prefix p (p ++ x) = true.
Proof.
  induction p as [|c p IH]; simpl; [now destruct x|].
  destruct (ascii_dec c c) as [_ | Hne]; [exact IH | contradiction Hne;
    reflexivity].
Qed.

Lemma prefix_split (p s : string) :
  String.prefix p s = true -> exists x, s = p ++ x.
Proof.
  revert s. induction p as [|c p IH]; intros s H.
  - exists s. reflexivity.
  - destruct s as [|d s]; simpl in H; [discriminate H|].
    destruct (ascii_dec c d) as [<- | _]; [|discriminate H].
    destruct (IH s H) as [x ->]. exists x. reflexivity.
Qed.

Lemma split_scan_head (s : string) :
  forall acc, acc <> "" ->
  exists t ts, split_scan acc s = t :: ts /\ String.prefix acc t = true.
Proof.
  induction s as [|c s IH]; intros acc Hacc.
  - exists acc, []. split.
    + simpl. unfold flush. destruct acc; [contradiction Hacc|]; reflexivity.
    + rewrite <- (append_empty_r acc) at 2. apply prefix_append.
  - simpl. destruct (isspace c).
    + exists acc, (split_scan "" s). split.
      * unfold flush. destruct acc; [contradiction Hacc|]; reflexivity.
      * rewrite <- (append_empty_r acc) at 2. apply prefix_append.
    + destruct (IH (acc ++ String c "")) as (t & ts & Heq & Hpre).
      { destruct acc; discriminate. }
      exists t, ts. split; [exact Heq|].
      apply prefix_split in Hpre as [x ->].
      rewrite append_assoc. apply prefix_append.
Qed.

(** The first token of a line that starts with [git] starts with
    [git]. *)
Lemma first_token_starts_with_git (command : string) :
  startswith command "git" = true ->
  exists t ts, split_whitespace command = t :: ts
               /\ startswith t "git" = true.
Proof.
  unfold startswith. intros H. apply prefix_split in H as [x ->].
  unfold split_whitespace. cbn [append split_scan].
  change (isspace "g") with false. change (isspace "i") with false.
  change (isspace "t") with false. cbn [append].
  apply split_scan_head. discriminate.
Qed.

(** * More about the handlers *)

Section MoreHandlerFacts.

Variable os : OS.

(** Unfolding any handler down to its calls and loops. *)
Ltac open_handler :=
  unfold git_init, git_add, git_commit, git_push, git_status, create_branch,
    delete_branch, rename_branch, refresh_branches, handle_merge_branches,
    git_fetch, refresh_branch_history, add_remote, add_remote_custom,
    refresh_remotes, git_push_advanced, git_pull, change_branch,
    execute_command, except_CalledProcessError, try, bind, read, ret,
    show_error, status_label_setText, output_text_append,
    advanced_output_append, terminal_output_append, history_text_clear,
    history_text_append, command_input_clear, merge_source_combo_clear,
    merge_target_combo_clear, delete_branch_combo_clear,
    rename_branch_combo_clear, branch_for_push_clear, remote_list_clear,
    update;
  cbn -[subprocess_run for_each].

(** Following every path through an opened handler: the three ends of
    each call, both sides of each test, the loops by their lemmas. *)
Ltac walk :=
  repeat first
    [ rewrite for_each_branch
    | rewrite for_each_remote
    | rewrite for_each_push
    | match goal with
      | |- context [subprocess_run os ?argv ?dir true ?w] =>
          let r := fresh "r" in
          let e := fresh "e" in
          let Hrun := fresh "Hrun" in
          let Hend := fresh "Hend" in
          destruct (subprocess_run_cases os argv dir w)
            as [(r & Hrun & Hend & _)
               | [(r & Hrun & Hend) | (e & Hrun & Hend)]];
          rewrite Hrun; clear Hrun;
          [ rewrite ?Hend | | destruct e; try discriminate Hend ]
      | |- context [if ?b then _ else _] => destruct b eqn:?
      end
    | progress cbn -[subprocess_run for_each] ].

Ltac grown :=
  first
    [ exists []; split; [now rewrite app_nil_r | cbn; lia]
    | eexists; split; [rewrite <- ?app_assoc; reflexivity | cbn; lia] ].

Ltac still_clean :=
  let Hc := fresh "Hc" in
  intros Hc; unfold combos_clean in *; cbn;
  destruct Hc as (? & ? & ? & ? & ? & ?);
  repeat split; rewrite ?items_add_items; cbn [clear items app];
  first [ assumption
        | apply branch_names_clean
        | rewrite <- branch_names_filter; apply branch_names_clean
        | apply split_whitespace_tokens ].

Ltac within_footprint :=
  constructor;
  [ unfold typed; cbn; congruence | cbn; congruence
  | cbn; grown | cbn; grown | still_clean ].

(** Every handler of the list stays within the footprint. *)
Lemma handler_footprint (h : Py unit) (w : World) :
  In h (handlers os) -> footprint w (snd (h w)).
Proof.
  intros H. unfold handlers in H. cbn [In] in H.
  repeat (destruct H as [<- | H]); [.. | contradiction H];
    open_handler; walk; within_footprint.
Qed.

Lemma grown_by_trans {A : Type} (n m : nat) (a b c : list A) :
  grown_by n a b -> grown_by m b c -> grown_by (n + m) a c.
Proof.
  intros (x & -> & Hx) (y & -> & Hy). exists (x ++ y)%list. split.
  - now rewrite app_assoc.
  - rewrite length_app. lia.
Qed.

Lemma session_invariant {A : Type} (f : GitGUI -> A)
      (P : Py unit -> Prop) :
  (forall h w, P h -> f (self (snd (h w))) = f (self w)) ->
  forall hs w, Forall P hs -> f (self (session hs w)) = f (self w).
Proof.
  intros Hstep hs w Hhs. revert w.
  induction Hhs as [|h hs Hh _ IH]; intros w; [reflexivity|].
  unfold session in *. cbn [fold_left]. rewrite IH. now apply Hstep.
Qed.

Lemma change_branch_keeps_typed (branch_name : string) (w : World) :
  typed (self (snd (change_branch os branch_name w))) = typed (self w).
Proof.
  pose (same := fun w' : World => typed (self w') = typed (self w)).
  change (same (snd (change_branch os branch_name w))).
  assert (Hsame : forall g d c, typed g = typed (self w) ->
                                same (mkWorld g d c))
    by (intros g d c Hg; exact Hg).
  clearbody same. open_handler. walk; apply Hsame; reflexivity.
Qed.

Lemma browse_repository_writes_path_only (chosen : string) (w : World) :
  typed_besides_path (self (snd (browse_repository chosen w)))
  = typed_besides_path (self w)
  /\ current_branch (self (snd (browse_repository chosen w)))
     = current_branch (self w)
  /\ repo_path (self (snd (browse_repository chosen w)))
     = (if is_empty chosen then repo_path (self w) else chosen).
Proof.
  unfold browse_repository. destruct (is_empty chosen); repeat split.
Qed.

Lemma typed_gives_rest (g g' : GitGUI) :
  typed g' = typed g ->
  typed_besides_path g' = typed_besides_path g /\ repo_path g' = repo_path g.
Proof.
  unfold typed, typed_besides_path. intros H. injection H as -> -> -> -> -> -> -> ->.
  split; reflexivity.
Qed.

(** X6. Through any session of the eighteen command handlers, the
    repository dialog and the toolbar branch change, the commit message,
    the branch, remote and URL fields and the force box stay as the
    user typed them, however the handlers end. The repository path is
    written by the repository dialog only, and the stored current
    branch by the toolbar branch change only: a session without the
    one keeps the path, a session without the other keeps the
    branch. *)
Theorem session_writes_typed_text_nowhere_else
        (hs : list (Py unit)) (w : World) :
  Forall (fun h => is_command os h \/ is_browse h \/ is_branch_change os h)
    hs ->
  typed_besides_path (self (session hs w)) = typed_besides_path (self w)
  /\ (Forall (fun h => is_command os h \/ is_branch_change os h) hs ->
      repo_path (self (session hs w)) = repo_path (self w))
  /\ (Forall (fun h => is_command os h \/ is_browse h) hs ->
      current_branch (self (session hs w)) = current_branch (self w)).
Proof.
  intros Hhs. repeat split.
  - revert hs w Hhs. apply (session_invariant typed_besides_path).
    intros h w [Hh | [[chosen ->] | [b ->]]].
    + apply typed_gives_rest.
      apply (keeps_typed _ _ (handler_footprint h w Hh)).
    + apply browse_repository_writes_path_only.
    + apply typed_gives_rest. apply change_branch_keeps_typed.
  - clear Hhs. revert hs w. apply (session_invariant repo_path).
    intros h w [Hh | [b ->]].
    + apply typed_gives_rest.
      apply (keeps_typed _ _ (handler_footprint h w Hh)).
    + apply typed_gives_rest. apply change_branch_keeps_typed.
  - clear Hhs. revert hs w. apply (session_invariant current_branch).
    intros h w [Hh | [chosen ->]].
    + apply (keeps_branch _ _ (handler_footprint h w Hh)).
    + apply browse_repository_writes_path_only.
Qed.

(** X7. A session never removes a recorded call or a shown dialog, and
    each handler run adds at most two calls and at most one dialog. *)
Theorem session_grows_traces (hs : list (Py unit)) (w : World) :
  Forall (fun h => In h (handlers os)) hs ->
  grown_by (2 * List.length hs) (calls w) (calls (session hs w))
  /\ grown_by (List.length hs) (dialogs w) (dialogs (session hs w)).
Proof.
  intros Hhs. revert w.
  induction Hhs as [|h hs Hh _ IH]; intros w.
  - split; exists []; (split; [now rewrite app_nil_r | cbn; lia]).
  - unfold session in *. cbn [fold_left List.length].
    destruct (IH (snd (h w))) as [Hc Hd].
    destruct (handler_footprint h w Hh) as [_ _ Hc' Hd' _].
    split.
    + replace (2 * S (List.length hs))%nat
        with (2 + 2 * List.length hs)%nat by lia.
      exact (grown_by_trans _ _ _ _ _ Hc' Hc).
    + exact (grown_by_trans 1 _ _ _ _ Hd' Hd).
Qed.

(** X8. Starting from the window as it is built, after any session every
    branch combo box holds only names that are not empty, are trimmed
    and contain no asterisk, and the remote combo box holds only
    non-empty names without whitespace. *)
Theorem session_keeps_combos_clean (hs : list (Py unit)) :
  Forall (fun h => In h (handlers os)) hs ->
  forall d c, combos_clean (self (session hs (mkWorld init_gui d c))).
Proof.
  intros Hhs d c.
  assert (Hgen : forall w, combos_clean (self w) ->
                           combos_clean (self (session hs w))).
  { induction Hhs as [|h hs Hh _ IH]; intros w Hw; [exact Hw|].
    unfold session in *. cbn [fold_left]. apply IH.
    now apply (keeps_clean _ _ (handler_footprint h w Hh)). }
  apply Hgen. unfold combos_clean. cbn. repeat split; constructor.
Qed.

Lemma subprocess_run_fails (argv : list string) (dir : string) (w : World)
      (r : CompletedProcess) :
  isdir os dir = true ->
  launch os (calls w) (call_of argv dir) = Exit r ->
  returncode r <> 0%Z ->
  subprocess_run os argv dir true w
  = (Raised (CalledProcessError (returncode r) argv),
     mkWorld (self w) (dialogs w) (calls w ++ [call_of argv dir])).
Proof.
  intros Hdir HL Hrc. unfold subprocess_run, call_of in *.
  rewrite Hdir. cbn. rewrite HL. apply Z.eqb_neq in Hrc. rewrite Hrc.
  reflexivity.
Qed.

(** X9. Each of init, add, status, pull, fetch and the history refresh
    makes exactly one call, with its fixed argument vector, in the
    directory of the repository-path field (not trimmed), however the
    call ends. *)
Theorem fixed_commands (argv : list string) (h : Py unit) (w : World) :
  In (argv, h) (commands os) ->
  calls (snd (h w))
  = (calls w ++ [call_of argv (repo_path (self w))])%list.
Proof.
  intros H. unfold commands in H. cbn [In] in H.
  repeat (destruct H as [H | H]; [injection H as <- <- |]);
    [.. | contradiction H];
    open_handler; walk; reflexivity.
Qed.

(** X10. When the command of one of these handlers exits with a status
    other than 0, the handler shows the [CalledProcessError] of that
    command and returns, and nothing in the window changes: no output
    is appended, the status label keeps its text, and the history pane
    is not cleared. *)
Theorem failed_command_changes_nothing
        (argv : list string) (h : Py unit) (w : World)
        (r : CompletedProcess) :
  In (argv, h) (commands os) ->
  isdir os (repo_path (self w)) = true ->
  launch os (calls w) (call_of argv (repo_path (self w))) = Exit r ->
  returncode r <> 0%Z ->
  h w
  = (Returned tt,
     mkWorld (self w)
       (dialogs w ++ [StrOf (CalledProcessError (returncode r) argv)])
       (calls w ++ [call_of argv (repo_path (self w))])).
Proof.
  intros H Hdir HL Hrc. unfold commands in H. cbn [In] in H.
  repeat (destruct H as [H | H]; [injection H as <- <- |]);
    [.. | contradiction H];
    open_handler; rewrite (subprocess_run_fails _ _ _ _ Hdir HL Hrc);
    reflexivity.
Qed.

(** X11. Each handler that tests a field first (create, delete, rename,
    merge, the two remote additions and the advanced push) refuses an
    empty field by itself: it shows its dialog and returns, calls no
    process and changes nothing in the window. *)
Theorem empty_field_is_refused
        (h : Py unit) (blank : GitGUI -> bool) (msg : string) (w : World) :
  In (h, blank, msg) (guarded os) ->
  blank (self w) = true ->
  h w = (Returned tt, mkWorld (self w) (dialogs w ++ [Text msg]) (calls w)).
Proof.
  intros H Hblank. unfold guarded in H. cbn [In] in H.
  repeat (destruct H as [H | H]; [injection H as <- <- <- |]);
    [.. | contradiction H];
    cbv beta in Hblank; open_handler; rewrite Hblank; reflexivity.
Qed.

(** X12. The terminal handler and the branch refresh never let an
    exception out, whatever the operating system does: their last
    [except Exception] clause catches what the others do not. *)
Theorem catch_all_handlers_return (w : World) :
  fst (execute_command os w) = Returned tt
  /\ fst (refresh_branches os w) = Returned tt.
Proof.
  split; open_handler; walk; reflexivity.
Qed.

Lemma execute_command_without_path (w : World) :
  is_empty (strip (repo_path (self w))) = true ->
  execute_command os w
  = (Returned tt,
     mkWorld (self w)
       (dialogs w ++ [Text "Please select a repository path first"])
       (calls w)).
Proof. intros Hp. open_handler. rewrite Hp. reflexivity. Qed.

(** X13. Whatever the terminal handler launches has an executable whose
    name begins with [git]: every call it adds runs in the trimmed
    repository path, without a shell, with the whitespace-separated
    tokens of the typed line as argument vector, none of them empty,
    and the first one starting with [git]. *)
Theorem terminal_runs_git_prefixed (w : World) (c : Call) :
  In c (calls (snd (execute_command os w))) ->
  In c (calls w)
  \/ (startswith (hd "" (args c)) "git" = true
      /\ Forall (fun t => Spec.token t = true) (args c)
      /\ args c = split_whitespace (strip (command_input (self w)))
      /\ cwd c = strip (repo_path (self w))
      /\ shell c = false).
Proof.
  intros Hin.
  destruct (is_empty (strip (repo_path (self w)))) eqn:Hp.
  - rewrite (execute_command_without_path w Hp) in Hin. now left.
  - destruct (startswith (strip (command_input (self w))) "git") eqn:Hg.
    + rewrite (execute_command_launches os w Hp Hg) in Hin.
      apply in_app_or in Hin as [Hin | [<- | []]]; [now left | right].
      destruct (first_token_starts_with_git _ Hg) as (t & ts & Heq & Ht).
      cbn [args cwd shell call_of]. rewrite Heq at 1. cbn [hd].
      repeat split; [exact Ht | apply split_whitespace_tokens].
    + rewrite (execute_command_rejects os w Hp Hg) in Hin. now left.
Qed.

(** X14. The terminal line is cleared exactly when the command was
    launched: after a launch the line is empty however the process
    ended, and after a refusal (no repository path, or a line that does
    not start with [git]) the window is as it was, the typed line
    included. *)
Theorem terminal_line_cleared_when_launched (w : World) :
  let path_given := negb (is_empty (strip (repo_path (self w)))) in
  let git_line := startswith (strip (command_input (self w))) "git" in
  (path_given && git_line = true ->
   command_input (self (snd (execute_command os w))) = "")
  /\ (path_given && git_line = false ->
      self (snd (execute_command os w)) = self w
      /\ calls (snd (execute_command os w)) = calls w).
Proof.
  intros path_given git_line. unfold path_given, git_line. split.
  - intros H. apply andb_prop in H as [Hp Hg].
    apply negb_true_iff in Hp.
    open_handler. rewrite Hp, Hg. cbn -[subprocess_run for_each].
    walk; reflexivity.
  - intros H. destruct (is_empty (strip (repo_path (self w)))) eqn:Hp.
    + rewrite (execute_command_without_path w Hp). split; reflexivity.
    + cbn [negb andb] in H.
      rewrite (execute_command_rejects os w Hp H). split; reflexivity.
Qed.

(** X15. The branch refresh is all or nothing. With a blank repository
    path it does nothing at all. When its call of [git branch --list]
    raises, the five combo boxes and the rest of the window stay as
    they were and one dialog shows the error: the boxes are cleared
    only after the call has returned. *)
Theorem refresh_branches_all_or_nothing (w : World) :
  (is_empty (strip (repo_path (self w))) = true ->
   refresh_branches os w = (Returned tt, w))
  /\ (forall e,
        is_empty (strip (repo_path (self w))) = false ->
        fst (subprocess_run os ["git"; "branch"; "--list"]
               (repo_path (self w)) true w) = Raised e ->
        self (snd (refresh_branches os w)) = self w
        /\ dialogs (snd (refresh_branches os w))
           = (dialogs w
              ++ [Prefixed
                    (if class_CalledProcessError e
                     then "Failed to refresh branches: "
                     else "Unexpected error while refreshing branches: ")
                    e])%list).
Proof.
  split.
  - intros Hp. open_handler. rewrite Hp. reflexivity.
  - intros e Hp He. open_handler. rewrite Hp.
    cbn -[subprocess_run for_each].
    destruct (subprocess_run os _ (repo_path (self w)) true w)
      as [o w1] eqn:Hrun.
    pose proof (subprocess_run_records os ["git"; "branch"; "--list"]
                  (repo_path (self w)) true w) as Hrec.
    rewrite Hrun in Hrec. cbn in Hrec, He. subst o w1.
    destruct e; cbn; split; reflexivity.
Qed.

(** X16. The remote refresh can stop half way. When [git remote]
    succeeds and the following [git branch --list] exits with a status
    other than 0, the remote combo box already holds the new remote
    names, while the push combo box and the output pane are as before,
    and the dialog shows the error of the branch listing. *)
Theorem refresh_remotes_stops_half_way (w : World)
        (r0 r : CompletedProcess) :
  let dir := repo_path (self w) in
  let remote_call := call_of ["git"; "remote"] dir in
  let list_call := call_of ["git"; "branch"; "--list"] dir in
  isdir os dir = true ->
  launch os (calls w) remote_call = Exit r0 ->
  returncode r0 = 0%Z ->
  launch os (calls w ++ [remote_call]) list_call = Exit r ->
  returncode r <> 0%Z ->
  let w' := snd (refresh_remotes os w) in
  items (remote_list (self w')) = split_whitespace (stdout r0)
  /\ branch_for_push (self w') = branch_for_push (self w)
  /\ advanced_output (self w') = advanced_output (self w)
  /\ dialogs w'
     = (dialogs w
        ++ [StrOf (CalledProcessError (returncode r)
                     ["git"; "branch"; "--list"])])%list
  /\ calls w' = (calls w ++ [remote_call; list_call])%list.
Proof.
  intros dir remote_call list_call Hdir HL0 Hrc0 HL Hrc w'.
  unfold w', remote_call, list_call, dir in *. clear w' remote_call list_call dir.
  open_handler.
  rewrite (subprocess_run_ok os _ _ _ _ Hdir HL0 Hrc0).
  cbn -[subprocess_run for_each]. rewrite for_each_remote.
  cbn -[subprocess_run for_each].
  match goal with
  | |- context [subprocess_run os ?argv ?d true ?w0] =>
      rewrite (subprocess_run_fails argv d w0 r Hdir HL Hrc)
  end.
  cbn. rewrite items_add_items, <- app_assoc. repeat split.
Qed.

End MoreHandlerFacts.

(** * More concrete runs *)

Example adjust_color_hover :
  MaterialButton.adjust_color MaterialButton.int16_digits "#2196F3" (-20)
  = Some "#0d82df".
Proof. reflexivity. Qed.

Example adjust_color_saturates :
  MaterialButton.adjust_color MaterialButton.int16_digits "#0a10ff" (-20)
  = Some "#0000eb"
  /\ MaterialButton.adjust_color MaterialButton.int16_digits "#0a10ff" 20
     = Some "#1e24ff".
Proof. split; reflexivity. Qed.

Lemma adjust_color_is_color_witness :
  MaterialButton.is_color "#0d82df" = true.
Proof.
  apply (ColorFacts.adjust_color_is_color MaterialButton.int16_digits
           "#2196F3" (-20) "#0d82df").
  reflexivity.
Defined.

Lemma adjust_color_short_witness :
  MaterialButton.adjust_color MaterialButton.int16_digits "#fff" (-20) = None.
Proof.
  apply (ColorFacts.adjust_color_short MaterialButton.int16_digits "#fff"
           (-20)).
  - reflexivity.
  - cbn. lia.
Defined.

Lemma adjust_color_channels_witness :
  exists a b c d e f,
    MaterialButton.adjust_color MaterialButton.int16_digits "#2196F3" (-40)
    = Some (String "#" (String a (String b (String c (String d
              (String e (String f "")))))))
    /\ MaterialButton.channels a b c d e f = (0, 110, 203)%Z.
Proof.
  exact (ColorFacts.adjust_color_channels MaterialButton.int16_digits
           ColorFacts.int16_digits_reads_hex "2" "1" "9" "6" "F" "3" ""
           eq_refl eq_refl eq_refl eq_refl eq_refl eq_refl
           "#2196F3" (-40) eq_refl).
Defined.

Lemma adjust_color_zero_witness :
  MaterialButton.adjust_color MaterialButton.int16_digits "#2196F3" 0
  = Some "#2196f3".
Proof.
  exact (ColorFacts.adjust_color_zero MaterialButton.int16_digits
           ColorFacts.int16_digits_reads_hex "2" "1" "9" "6" "F" "3" ""
           eq_refl eq_refl eq_refl eq_refl eq_refl eq_refl
           "#2196F3" eq_refl).
Defined.

Lemma adjust_color_adds_up_witness :
  match MaterialButton.adjust_color MaterialButton.int16_digits "#2196F3"
          (-20) with
  | Some hover =>
      MaterialButton.adjust_color MaterialButton.int16_digits hover (-20)
  | None => None
  end
  = MaterialButton.adjust_color MaterialButton.int16_digits "#2196F3" (-40).
Proof.
  apply (ColorFacts.adjust_color_adds_up MaterialButton.int16_digits
           ColorFacts.int16_digits_reads_hex "2" "1" "9" "6" "F" "3" ""
           eq_refl eq_refl eq_refl eq_refl eq_refl eq_refl
           "#2196F3" (-20)%Z (-20)%Z eq_refl).
  left. split; lia.
Defined.

Lemma session_writes_typed_text_nowhere_else_witness :
  typed_besides_path
    (self (session
             [browse_repository "/other";
              git_commit (Sample.os_failing "init" 1);
              change_branch (Sample.os_failing "init" 1) "develop";
              refresh_remotes (Sample.os_failing "init" 1)]
             (Sample.world (set_commit_msg "first" Sample.gui))))
  = ("first", "", "", "", "", "", false)
  /\ repo_path
       (self (session
                [git_init Sample.os_no_dir;
                 change_branch Sample.os_no_dir "develop"]
                (Sample.world Sample.gui)))
     = "/repo"
  /\ current_branch
       (self (session
                [browse_repository "/other"; git_push (Sample.os_ok "")]
                (Sample.world Sample.gui)))
     = "main".
Proof.
  split; [|split].
  - apply (session_writes_typed_text_nowhere_else
             (Sample.os_failing "init" 1)
             [browse_repository "/other";
              git_commit (Sample.os_failing "init" 1);
              change_branch (Sample.os_failing "init" 1) "develop";
              refresh_remotes (Sample.os_failing "init" 1)]
             (Sample.world (set_commit_msg "first" Sample.gui))).
    repeat apply Forall_cons; try apply Forall_nil.
    + right. left. now exists "/other".
    + left. cbn. repeat (first [left; reflexivity | right]).
    + right. right. now exists "develop".
    + left. cbn. repeat (first [left; reflexivity | right]).
  - apply (session_writes_typed_text_nowhere_else Sample.os_no_dir
             [git_init Sample.os_no_dir;
              change_branch Sample.os_no_dir "develop"]
             (Sample.world Sample.gui)).
    + repeat apply Forall_cons; try apply Forall_nil.
      * left. cbn. now left.
      * right. right. now exists "develop".
    + repeat apply Forall_cons; try apply Forall_nil.
      * left. cbn. now left.
      * right. now exists "develop".
  - apply (session_writes_typed_text_nowhere_else (Sample.os_ok "")
             [browse_repository "/other"; git_push (Sample.os_ok "")]
             (Sample.world Sample.gui)).
    + repeat apply Forall_cons; try apply Forall_nil.
      * right. left. now exists "/other".
      * left. cbn. repeat (first [left; reflexivity | right]).
    + repeat apply Forall_cons; try apply Forall_nil.
      * right. now exists "/other".
      * left. cbn. repeat (first [left; reflexivity | right]).
Defined.

Lemma session_grows_traces_witness :
  grown_by 4 []
    (calls (session [handle_merge_branches (Sample.os_ok "");
                     git_status (Sample.os_ok "")]
              (Sample.world Sample.merge_gui))).
Proof.
  apply (session_grows_traces (Sample.os_ok "")
           [handle_merge_branches (Sample.os_ok "");
            git_status (Sample.os_ok "")]
           (Sample.world Sample.merge_gui)).
  repeat (apply Forall_cons;
          [cbn; repeat (first [left; reflexivity | right]) |]);
    apply Forall_nil.
Defined.

Lemma session_keeps_combos_clean_witness :
  combos_clean
    (self (session [refresh_branches (Sample.os_ok Sample.branch_output);
                    refresh_remotes (Sample.os_ok Sample.branch_output)]
             (mkWorld init_gui [] []))).
Proof.
  apply (session_keeps_combos_clean (Sample.os_ok Sample.branch_output)).
  repeat (apply Forall_cons;
          [cbn; repeat (first [left; reflexivity | right]) |]);
    apply Forall_nil.
Defined.

Lemma fixed_commands_witness :
  calls (snd (refresh_branch_history Sample.os_no_dir
                (Sample.world Sample.gui)))
  = [call_of ["git"; "log"; "--oneline"; "--graph"; "--all"] "/repo"].
Proof.
  apply (fixed_commands Sample.os_no_dir
           ["git"; "log"; "--oneline"; "--graph"; "--all"]
           (refresh_branch_history Sample.os_no_dir)
           (Sample.world Sample.gui)).
  cbn. repeat (first [left; reflexivity | right]).
Defined.

Lemma failed_command_changes_nothing_witness :
  git_pull (Sample.os_failing "pull" 1) (Sample.world Sample.gui)
  = (Returned tt,
     mkWorld Sample.gui [StrOf (CalledProcessError 1 ["git"; "pull"])]
       [call_of ["git"; "pull"] "/repo"]).
Proof.
  apply (failed_command_changes_nothing (Sample.os_failing "pull" 1)
           ["git"; "pull"] (git_pull (Sample.os_failing "pull" 1))
           (Sample.world Sample.gui) (mkCompleted 1 "" "fatal")).
  - cbn. repeat (first [left; reflexivity | right]).
  - reflexivity.
  - reflexivity.
  - discriminate.
Defined.

Lemma empty_field_is_refused_witness :
  delete_branch (Sample.os_ok "") (Sample.world Sample.gui)
  = (Returned tt,
     mkWorld Sample.gui [Text "Please select a branch to delete"] []).
Proof.
  apply (empty_field_is_refused (Sample.os_ok "")
           (delete_branch (Sample.os_ok ""))
           (fun g => is_empty (currentText (delete_branch_combo g)))
           "Please select a branch to delete" (Sample.world Sample.gui)).
  - cbn. repeat (first [left; reflexivity | right]).
  - reflexivity.
Defined.

Lemma terminal_runs_git_prefixed_witness :
  startswith (hd "" ["gitk"; "--all"]) "git" = true.
Proof.
  destruct (terminal_runs_git_prefixed (Sample.os_ok "")
              (Sample.world (set_command_input "gitk --all" Sample.gui))
              (call_of ["gitk"; "--all"] "/repo")
              ltac:(cbn; left; reflexivity)) as [[] | (H & _)].
  exact H.
Defined.

Lemma terminal_line_cleared_when_launched_witness :
  command_input
    (self (snd (execute_command Sample.os_no_dir
                  (Sample.world (set_command_input "git status" Sample.gui)))))
  = ""
  /\ self (snd (execute_command Sample.os_no_dir
                  (Sample.world (set_command_input "ls" Sample.gui))))
     = set_command_input "ls" Sample.gui.
Proof.
  split.
  - apply (proj1 (terminal_line_cleared_when_launched Sample.os_no_dir
                    (Sample.world
                       (set_command_input "git status" Sample.gui)))).
    reflexivity.
  - apply (proj2 (terminal_line_cleared_when_launched Sample.os_no_dir
                    (Sample.world (set_command_input "ls" Sample.gui)))).
    reflexivity.
Defined.

Lemma refresh_branches_all_or_nothing_witness :
  refresh_branches (Sample.os_ok "") (Sample.world init_gui)
  = (Returned tt, Sample.world init_gui)
  /\ self (snd (refresh_branches (Sample.os_failing "branch" 128)
                  (Sample.world Sample.merge_gui)))
     = Sample.merge_gui.
Proof.
  split.
  - apply (proj1 (refresh_branches_all_or_nothing (Sample.os_ok "")
                    (Sample.world init_gui))).
    reflexivity.
  - apply (proj2 (refresh_branches_all_or_nothing
                    (Sample.os_failing "branch" 128)
                    (Sample.world Sample.merge_gui))
             (CalledProcessError 128 ["git"; "branch"; "--list"])
             eq_refl eq_refl).
Defined.

Lemma refresh_remotes_stops_half_way_witness :
  items (remote_list
           (self (snd (refresh_remotes (Sample.os_failing "branch" 128)
                         (Sample.world Sample.gui)))))
  = []
  /\ dialogs (snd (refresh_remotes (Sample.os_failing "branch" 128)
                     (Sample.world Sample.gui)))
     = [StrOf (CalledProcessError 128 ["git"; "branch"; "--list"])].
Proof.
  destruct (refresh_remotes_stops_half_way (Sample.os_failing "branch" 128)
              (Sample.world Sample.gui)
              (mkCompleted 0 "" "") (mkCompleted 128 "" "fatal")
              eq_refl eq_refl eq_refl eq_refl ltac:(discriminate))
    as (Hitems & _ & _ & Hdialogs & _).
  split; [exact Hitems | exact Hdialogs].
Defined.
